(** * Credential and token lifecycle of the authentication backend

    A shallow embedding of the Express handlers of the backend
    (register, login, profile, password reset) together with the
    collaborators they call: jsonwebtoken, bcrypt, Joi, the Sequelize
    [User] model and the mailer.

    The handlers are embedded statement by statement in a small
    state-and-exception monad over a [World] (the user table, the mail
    outbox and a trace of collaborator calls).  The third-party libraries
    are interfaces (type classes) with the contract the handlers rely on;
    a reference implementation of each interface is given so that every
    handler can be run on concrete requests. *)

From Stdlib Require Import String Ascii List NArith Bool Lia.
From Stdlib Require Import DecimalString DecimalN.
Import ListNotations.
Open Scope string_scope.
Open Scope N_scope.

(* ===================================================================== *)
(** ** JavaScript strings *)
(* ===================================================================== *)

Module Js.

(** [s.split(sep)] for a one-character separator: the pieces between
    the occurrences of [sep]; a string without [sep] is its only piece,
    so the result is never empty. *)
Fixpoint split (sep : ascii) (s : string) : list string :=
  match s with
  | EmptyString => [EmptyString]
  | String c rest =>
      if Ascii.eqb c sep then EmptyString :: split sep rest
      else match split sep rest with
           | [] => [String c EmptyString]
           | piece :: pieces => String c piece :: pieces
           end
  end.

(** [!s] for a possibly undefined string: undefined and the empty
    string are falsy. *)
Definition falsy (o : option string) : bool :=
  match o with
  | None => true
  | Some s => String.eqb s ""
  end.

(** The string a value is once it is known not to be undefined. *)
Definition text (o : option string) : string :=
  match o with
  | None => ""
  | Some s => s
  end.

(** No character of [s] is [c]. *)
Fixpoint free_of (c : ascii) (s : string) : bool :=
  match s with
  | EmptyString => true
  | String d rest => negb (Ascii.eqb d c) && free_of c rest
  end.

Fixpoint forallb (p : ascii -> bool) (s : string) : bool :=
  match s with
  | EmptyString => true
  | String c rest => p c && forallb p rest
  end.

Fixpoint existsb (p : ascii -> bool) (s : string) : bool :=
  match s with
  | EmptyString => false
  | String c rest => p c || existsb p rest
  end.

Definition between (lo hi c : ascii) : bool :=
  (N_of_ascii lo <=? N_of_ascii c) && (N_of_ascii c <=? N_of_ascii hi).

Definition is_lower (c : ascii) : bool := between "a" "z" c.
Definition is_upper (c : ascii) : bool := between "A" "Z" c.
Definition is_digit (c : ascii) : bool := between "0" "9" c.
Definition is_alnum (c : ascii) : bool := is_lower c || is_upper c || is_digit c.

(** [\s] restricted to ASCII. *)
Definition is_space (c : ascii) : bool :=
  let n := N_of_ascii c in
  (n =? 32) || ((9 <=? n) && (n <=? 13)).

(** Decimal rendering of a number, as [String(n)] does for an integer. *)
Definition of_N (n : N) : string := NilEmpty.string_of_uint (N.to_uint n).

(** Reading a decimal numeral back; a string with another character in
    it is not a numeral. *)
Definition to_N (s : string) : option N :=
  option_map N.of_uint (NilEmpty.uint_of_string s).

End Js.

(* ===================================================================== *)
(** ** Third-party libraries, as interfaces *)
(* ===================================================================== *)

(** The primary key of a user: the UUID column of the model, seen as a
    number. *)
Definition UserId := N.

(** *** jsonwebtoken *)

Module Jwt.

(** The decoded payload: the subject and the two registered time claims,
    in seconds since the epoch. *)
Record Claims := { id : UserId; iat : N; exp : N }.

(** The errors [jwt.verify] reports. *)
Inductive VerifyError :=
| TokenExpiredError
| JsonWebTokenError (message : string)
| NotBeforeError.

(** [error.name] *)
Definition name (e : VerifyError) : string :=
  match e with
  | TokenExpiredError => "TokenExpiredError"
  | JsonWebTokenError _ => "JsonWebTokenError"
  | NotBeforeError => "NotBeforeError"
  end.

(** [sign id secret expiresIn now] is [jwt.sign({ id }, secret, { expiresIn })]
    evaluated when the clock reads [now]; [verify token secret now] is
    [jwt.verify(token, secret)] evaluated when the clock reads [now]. *)
Class Lib := {
  sign : UserId -> string -> N -> N -> string;
  verify : string -> string -> N -> VerifyError + Claims
}.

(** What the handlers rely on: a token verifies under the secret it was
    signed with, decoding to the signed subject, as long as the clock is
    strictly before [exp = iat + expiresIn], and is reported expired from
    [exp] on; a token is one non-empty word. *)
Class Laws (L : Lib) : Prop := {
  verify_sign : forall i secret ttl t0 t,
    verify (sign i secret ttl t0) secret t =
    if t <? t0 + ttl
    then inr {| id := i; iat := t0; exp := t0 + ttl |}
    else inl TokenExpiredError;
  sign_word : forall i secret ttl t0,
    sign i secret ttl t0 <> "" /\ Js.free_of " " (sign i secret ttl t0) = true
}.

(** [expiresIn: "1h"], in seconds. *)
Definition one_hour : N := 3600.

End Jwt.

(** *** bcrypt *)

Module Bcrypt.

(** [hash data rounds salt] is [bcrypt.hash(data, rounds)] when the salt
    the library draws is [salt]; [compare data encrypted] is
    [bcrypt.compare(data, encrypted)]. *)
Class Lib := {
  hash : string -> N -> string -> string;
  compare : string -> string -> bool
}.

(** The contract of the credential manager: a hash verifies against the
    plaintext it was made from, and is never that plaintext. *)
Class Laws (L : Lib) : Prop := {
  compare_hash : forall data rounds salt, compare data (hash data rounds salt) = true;
  hash_opaque : forall data rounds salt, hash data rounds salt <> data
}.

End Bcrypt.

(** *** Joi *)

(** A JSON object whose values are strings: a request body, or the
    request headers. *)
Definition Dict := list (string * string).

Fixpoint get (key : string) (d : Dict) : option string :=
  match d with
  | [] => None
  | (k, v) :: rest => if String.eqb k key then Some v else get key rest
  end.

Module Joi.

Record RegExp := { source : string; test : string -> bool }.

(** The rules chained on [Joi.string()] in the schemas. *)
Inductive Rule :=
| alphanum
| min (limit : N)
| max (limit : N)
| pattern (re : RegExp)
| email
| required.

Record StringSchema := {
  rules : list Rule;
  messages : Dict
}.

(** [Joi.object({ ... })]: the keys in the order they are declared. *)
Definition ObjectSchema := list (string * StringSchema).

(** [validate schema value] is the [error] of [schema.validate(value)]:
    [None] when the value is accepted, otherwise
    [error.details[0].message]. *)
Class Lib := {
  validate : ObjectSchema -> Dict -> option string
}.

End Joi.

(* ===================================================================== *)
(** ** utils/validationSchemas.js *)
(* ===================================================================== *)

(** The characters [@$!%*?&#]. *)
Definition is_special (c : ascii) : bool :=
  existsb (Ascii.eqb c) (list_ascii_of_string "@$!%*?&#").

(** The matcher of the password pattern: the four lookaheads ask for a
    lower-case letter, an upper-case letter, a digit and a special
    character somewhere, and the body for at least eight characters, all
    of them letters, digits or special characters. *)
Definition strong_password (s : string) : bool :=
  Js.existsb Js.is_lower s && Js.existsb Js.is_upper s &&
  Js.existsb Js.is_digit s && Js.existsb is_special s &&
  Js.forallb (fun c => Js.is_alnum c || is_special c) s &&
  (8 <=? N.of_nat (String.length s)).

Definition passwordPattern : Joi.RegExp := {|
  Joi.source := "^(?=.*[a-z])(?=.*[A-Z])(?=.*\d)(?=.*[@$!%*?&#])[A-Za-z\d@$!%*?&#]{8,}$";
  Joi.test := strong_password
|}.

Definition registerSchema : Joi.ObjectSchema :=
  [ ("username",
     {| Joi.rules := [Joi.alphanum; Joi.min 5; Joi.max 30; Joi.required];
        Joi.messages :=
          [ ("string.alphanum", "Username must only contain alphanumeric characters.");
            ("string.min", "Username must be at least 5 characters long.");
            ("string.max", "Username must not exceed 30 characters.");
            ("any.required", "Username is required.") ] |});
    ("password",
     {| Joi.rules := [Joi.min 8; Joi.pattern passwordPattern; Joi.required];
        Joi.messages :=
          [ ("string.min", "Password must be at least 8 characters long.");
            ("string.pattern.base", "Password must include at least one uppercase letter, one lowercase letter, one number, and one special character.");
            ("any.required", "Password is required.") ] |});
    ("email",
     {| Joi.rules := [Joi.email; Joi.required];
        Joi.messages :=
          [ ("string.email", "Email must be a valid email address.");
            ("any.required", "Email is required.") ] |}) ].

Definition loginSchema : Joi.ObjectSchema :=
  [ ("username",
     {| Joi.rules := [Joi.alphanum; Joi.min 3; Joi.max 30; Joi.required];
        Joi.messages :=
          [ ("string.alphanum", "Username must only contain alphanumeric characters.");
            ("string.min", "Username must be at least 3 characters long.");
            ("string.max", "Username must not exceed 30 characters.");
            ("any.required", "Username is required.") ] |});
    ("password",
     {| Joi.rules := [Joi.required];
        Joi.messages := [ ("any.required", "Password is required.") ] |}) ].

Definition resetPasswordSchema : Joi.ObjectSchema :=
  [ ("email",
     {| Joi.rules := [Joi.email; Joi.required];
        Joi.messages :=
          [ ("string.email", "Email must be a valid email address.");
            ("any.required", "Email is required.") ] |}) ].

Definition newPasswordSchema : Joi.ObjectSchema :=
  [ ("token",
     {| Joi.rules := [Joi.required];
        Joi.messages := [ ("any.required", "Token is required.") ] |});
    ("newPassword",
     {| Joi.rules := [Joi.min 8; Joi.pattern passwordPattern; Joi.required];
        Joi.messages :=
          [ ("string.min", "New password must be at least 8 characters long.");
            ("string.pattern.base", "New password must include at least one uppercase letter, one lowercase letter, one number, and one special character.");
            ("any.required", "New password is required.") ] |}) ].

(* ===================================================================== *)
(** ** The world the handlers run in *)
(* ===================================================================== *)

Module Model.

(** Modelled from the spec: the model declaration that goes with the
    handlers below (the one with the [email] column) is not among the
    sources; the column and its uniqueness follow the user record of the
    specification, where [username] and [email] are both unique.

    A row of the [User] table.  The column [password] holds the bcrypt
    hash.  The timestamps Sequelize adds are left out. *)
Record User := {
  id : UserId;
  username : string;
  password : string;
  email : string
}.

End Model.

Record Mail := {
  to : string;
  subject : string;
  recipient_name : string;
  link : string
}.

(** The calls a handler makes to its collaborators, in the order it makes
    them. *)
Inductive Event :=
| JwtSign (subject_id : UserId)
| JwtVerify (token : option string)
| BcryptHash
| BcryptCompare
| DbFindOne (column : string) (value : option string)
| DbFindByPk (pk : UserId)
| DbCreate (username email : option string)
| DbUpdate (pk : UserId)
| MailSend (address : option string)
| ConsoleError (label : string).

Record World := {
  users : list Model.User;
  outbox : list Mail;
  trace : list Event
}.

(** What a request sees of the process and of the moment it runs in:
    [process.env], the clock in seconds, the salt bcrypt draws and whether
    the mail transport accepts the message. *)
Record Env := {
  JWT_SECRET : string;
  FRONTEND_URL : string;
  now : N;
  salt : string;
  smtp_up : bool
}.

(** Thrown values, told apart by their [name]. *)
Inductive Exn :=
| JwtError (e : Jwt.VerifyError)
| SequelizeUniqueConstraintError
| SequelizeValidationError
| Error (message : string).

Definition name (e : Exn) : string :=
  match e with
  | JwtError e => Jwt.name e
  | SequelizeUniqueConstraintError => "SequelizeUniqueConstraintError"
  | SequelizeValidationError => "SequelizeValidationError"
  | Error _ => "Error"
  end.

Inductive Outcome (A : Type) :=
| Returned (a : A)
| Thrown (e : Exn).

Arguments Returned {A} a.
Arguments Thrown {A} e.

(** Computations that read and change the world and may throw.  What was
    done before a throw stays done. *)
Definition M (A : Type) := World -> Outcome A * World.

Definition ret {A} (a : A) : M A := fun w => (Returned a, w).

Definition throw {A} (e : Exn) : M A := fun w => (Thrown e, w).

Definition bind {A B} (m : M A) (k : A -> M B) : M B :=
  fun w =>
    match m w with
    | (Returned a, w') => k a w'
    | (Thrown e, w') => (Thrown e, w')
    end.

(** [try { body } catch (error) { handler }] *)
Definition try_catch {A} (body : M A) (handler : Exn -> M A) : M A :=
  fun w =>
    match body w with
    | (Returned a, w') => (Returned a, w')
    | (Thrown e, w') => handler e w'
    end.

Definition emit (e : Event) : M unit :=
  fun w => (Returned tt, {| users := users w; outbox := outbox w; trace := trace w ++ [e] |}).

Definition get_users : M (list Model.User) := fun w => (Returned (users w), w).

Definition put_users (us : list Model.User) : M unit :=
  fun w => (Returned tt, {| users := us; outbox := outbox w; trace := trace w |}).

Definition post (m : Mail) : M unit :=
  fun w => (Returned tt, {| users := users w; outbox := outbox w ++ [m]; trace := trace w |}).

Declare Scope monad_scope.
Delimit Scope monad_scope with monad.
Notation "x <- m ;; k" := (bind m (fun x => k))
  (at level 61, m at next level, right associativity) : monad_scope.
Notation "m ;; k" := (bind m (fun _ => k))
  (at level 61, right associativity) : monad_scope.
Notation "'try' body 'catch' handler" := (try_catch body handler)
  (at level 62, body at level 61) : monad_scope.
Open Scope monad_scope.

Definition console_error (label : string) : M unit := emit (ConsoleError label).

(* ===================================================================== *)
(** ** Requests and responses *)
(* ===================================================================== *)

Record Request := {
  headers : Dict;
  body : Dict
}.

#[local] Set Warnings "-register-all".

Inductive Json :=
| JString (s : string)
| JUuid (i : UserId)
| JObject (fields : list (string * Json)).

Record Response := {
  status : N;
  json : Json
}.

(** [res.status(code).json(value)] *)
Definition res_status_json (code : N) (value : Json) : M Response :=
  ret {| status := code; json := value |}.

(** [{ message: text }] *)
Definition message (text : string) : Json := JObject [("message", JString text)].

(** Every key that occurs in a JSON value, at any depth. *)
Fixpoint keys (j : Json) : list string :=
  match j with
  | JObject fields =>
      (fix go (l : list (string * Json)) : list string :=
         match l with
         | [] => []
         | (k, v) :: rest => k :: keys v ++ go rest
         end) fields
  | _ => []
  end.

Fixpoint lookup (key : string) (fields : list (string * Json)) : option Json :=
  match fields with
  | [] => None
  | (k, v) :: rest => if String.eqb k key then Some v else lookup key rest
  end.

(* ===================================================================== *)
(** ** models/User.js: the Sequelize model *)
(* ===================================================================== *)

Module User.

(** The value of a text column of a row. *)
Definition column (name : string) (u : Model.User) : option string :=
  if String.eqb name "username" then Some (Model.username u)
  else if String.eqb name "email" then Some (Model.email u)
  else if String.eqb name "password" then Some (Model.password u)
  else None.

(** [User.findOne({ where: { column: value } })]: the first row whose
    column holds the value (compared exactly); an undefined value is
    rejected by Sequelize. *)
Definition findOne (name : string) (value : option string) : M (option Model.User) :=
  emit (DbFindOne name value) ;;
  match value with
  | None => throw (Error "WHERE parameter has invalid undefined value")
  | Some v =>
      us <- get_users ;;
      ret (find (fun u => match column name u with
                          | Some x => String.eqb x v
                          | None => false
                          end) us)
  end.

(** [User.findByPk(pk)] *)
Definition findByPk (pk : UserId) : M (option Model.User) :=
  emit (DbFindByPk pk) ;;
  us <- get_users ;;
  ret (find (fun u => Model.id u =? pk) us).

(** The row as the JSON object an instance serialises to. *)
Definition toJSON (u : Model.User) : list (string * Json) :=
  [ ("id", JUuid (Model.id u));
    ("username", JString (Model.username u));
    ("password", JString (Model.password u));
    ("email", JString (Model.email u)) ].

(** The instance loaded with [{ attributes }]: the named columns, in the
    order they are named. *)
Definition select (attributes : list string) (u : Model.User) : Json :=
  JObject (flat_map (fun a => match lookup a (toJSON u) with
                              | Some v => [(a, v)]
                              | None => []
                              end) attributes).

(** [User.findByPk(pk, { attributes })] *)
Definition findByPk_attributes (pk : UserId) (attributes : list string) : M (option Json) :=
  user <- findByPk pk ;;
  ret (option_map (select attributes) user).

(** The default value of the primary key.  The model draws a random
    UUID; the embedding takes an identifier no row has yet. *)
Definition fresh_id (us : list Model.User) : UserId :=
  N.succ (fold_right (fun u m => N.max (Model.id u) m) 0 us).

Definition taken (username email : string) (us : list Model.User) : bool :=
  existsb (fun u => String.eqb (Model.username u) username
                    || String.eqb (Model.email u) email) us.

(** [User.create({ username, password, email })]: a missing column fails
    the not-null validation, a taken username or email the unique
    constraint; otherwise the row is appended with a new primary key. *)
Definition create (username : option string) (password : string) (email : option string)
  : M Model.User :=
  emit (DbCreate username email) ;;
  match username, email with
  | Some un, Some em =>
      us <- get_users ;;
      if taken un em us then throw SequelizeUniqueConstraintError
      else
        let newUser := {| Model.id := fresh_id us; Model.username := un;
                          Model.password := password; Model.email := em |} in
        put_users (us ++ [newUser]) ;;
        ret newUser
  | _, _ => throw SequelizeValidationError
  end.

Definition set_password (password : string) (u : Model.User) : Model.User :=
  {| Model.id := Model.id u; Model.username := Model.username u;
     Model.password := password; Model.email := Model.email u |}.

(** [user.update({ password })]: rewrites the column of the row with the
    instance's primary key. *)
Definition update (user : Model.User) (password : string) : M unit :=
  emit (DbUpdate (Model.id user)) ;;
  us <- get_users ;;
  put_users (map (fun u => if Model.id u =? Model.id user
                           then set_password password u else u) us).

End User.

(* ===================================================================== *)
(** ** utils/mailer *)
(* ===================================================================== *)

(** Modelled from the spec: the mailer module is not among the sources.
    It is the mail collaborator of the specification,
    [send(toAddress, subject, templateData)]: the message is handed to
    the transport, and a delivery failure is thrown to the caller. *)
Definition sendResetMail (env : Env) (address : option string) (subj name resetLink : string)
  : M unit :=
  emit (MailSend address) ;;
  match address with
  | Some a =>
      if smtp_up env
      then post {| to := a; subject := subj; recipient_name := name; link := resetLink |}
      else throw (Error "mail transport failed")
  | None => throw (Error "No recipients defined")
  end.

(* ===================================================================== *)
(** ** The handlers *)
(* ===================================================================== *)

Section Handlers.

Context {jwt : Jwt.Lib} {bcrypt : Bcrypt.Lib} {joi : Joi.Lib}.

(** [jwt.sign({ id }, secret, { expiresIn })] *)
Definition jwt_sign (env : Env) (i : UserId) (secret : string) (expiresIn : N) : M string :=
  emit (JwtSign i) ;;
  ret (Jwt.sign i secret expiresIn (now env)).

(** [jwt.verify(token, secret)], which throws on failure. *)
Definition jwt_verify (env : Env) (token : option string) (secret : string) : M Jwt.Claims :=
  emit (JwtVerify token) ;;
  match token with
  | None => throw (JwtError (Jwt.JsonWebTokenError "jwt must be provided"))
  | Some t =>
      match Jwt.verify t secret (now env) with
      | inl e => throw (JwtError e)
      | inr decoded => ret decoded
      end
  end.

(** [jwt.verify(token, secret, callback)], which reports to the
    callback. *)
Definition jwt_verify_callback {A} (env : Env) (token secret : string)
    (callback : Jwt.VerifyError + Jwt.Claims -> M A) : M A :=
  emit (JwtVerify (Some token)) ;;
  callback (Jwt.verify token secret (now env)).

(** [bcrypt.hash(data, rounds)] *)
Definition bcrypt_hash (env : Env) (data : option string) (rounds : N) : M string :=
  emit BcryptHash ;;
  match data with
  | None => throw (Error "data and salt arguments required")
  | Some d => ret (Bcrypt.hash d rounds (salt env))
  end.

(** [bcrypt.compare(data, encrypted)] *)
Definition bcrypt_compare (data : option string) (encrypted : string) : M bool :=
  emit BcryptCompare ;;
  match data with
  | None => throw (Error "data and hash arguments required")
  | Some d => ret (Bcrypt.compare d encrypted)
  end.

(** *** routes/auth/register.js *)

Definition register (env : Env) (req : Request) : M Response :=
  match Joi.validate registerSchema (body req) with
  | Some error => res_status_json 400 (message error)
  | None =>
      let username := get "username" (body req) in
      let password := get "password" (body req) in
      let email := get "email" (body req) in
      try (
        hashedPassword <- bcrypt_hash env password 10 ;;
        newUser <- User.create username hashedPassword email ;;
        res_status_json 201
          (JObject [ ("message", JString "User registered successfully.");
                     ("userId", JUuid (Model.id newUser)) ])
      ) catch (fun error =>
        if String.eqb (name error) "SequelizeUniqueConstraintError"
        then res_status_json 400 (message "Username or email already exists.")
        else
          console_error "Error during registration:" ;;
          res_status_json 500 (message "Internal server error."))
  end.

(** *** routes/auth/login.js *)

Definition login (env : Env) (req : Request) : M Response :=
  match Joi.validate loginSchema (body req) with
  | Some error => res_status_json 400 (message error)
  | None =>
      let username := get "username" (body req) in
      let password := get "password" (body req) in
      try (
        user <- User.findOne "username" username ;;
        match user with
        | None => res_status_json 400 (message "Invalid username or password.")
        | Some user =>
            isPasswordValid <- bcrypt_compare password (Model.password user) ;;
            if negb isPasswordValid
            then res_status_json 400 (message "Invalid username or password.")
            else
              token <- jwt_sign env (Model.id user) (JWT_SECRET env) Jwt.one_hour ;;
              res_status_json 200
                (JObject [ ("message", JString "Login successful.");
                           ("token", JString token) ])
        end
      ) catch (fun error =>
        console_error "Error during login:" ;;
        res_status_json 500 (message "Internal server error."))
  end.

(** *** routes/auth/resetPassword.js *)

Definition resetPasswordRequest (env : Env) (req : Request) : M Response :=
  match Joi.validate resetPasswordSchema (body req) with
  | Some error => res_status_json 400 (message error)
  | None =>
      let email := get "email" (body req) in
      try (
        user <- User.findOne "email" email ;;
        match user with
        | None => res_status_json 404 (message "Email not found.")
        | Some user =>
            resetToken <- jwt_sign env (Model.id user) (JWT_SECRET env) Jwt.one_hour ;;
            let resetLink := FRONTEND_URL env ++ "/reset-password?token=" ++ resetToken in
            sendResetMail env email "Password Reset Request" (Model.username user) resetLink ;;
            res_status_json 200 (message "Reset link sent successfully.")
        end
      ) catch (fun error =>
        console_error "Error during password reset request:" ;;
        res_status_json 500 (message "Internal server error."))
  end.

Definition resetPassword (env : Env) (req : Request) : M Response :=
  match Joi.validate newPasswordSchema (body req) with
  | Some error => res_status_json 400 (message error)
  | None =>
      let token := get "token" (body req) in
      let newPassword := get "newPassword" (body req) in
      try (
        decoded <- jwt_verify env token (JWT_SECRET env) ;;
        user <- User.findByPk (Jwt.id decoded) ;;
        match user with
        | None => res_status_json 400 (message "Invalid token.")
        | Some user =>
            hashedPassword <- bcrypt_hash env newPassword 10 ;;
            User.update user hashedPassword ;;
            res_status_json 200 (message "Password reset successfully.")
        end
      ) catch (fun error =>
        if String.eqb (name error) "TokenExpiredError"
        then res_status_json 400 (message "Token expired.")
        else
          console_error "Error during password reset:" ;;
          res_status_json 500 (message "Internal server error."))
  end.

(** *** routes/userRoutes.js *)

(** The middleware: [next] receives the [req.userId] it sets. *)
Definition verifyToken (env : Env) (req : Request) (next : UserId -> M Response)
  : M Response :=
  let authHeader := get "authorization" (headers req) in
  if Js.falsy authHeader
  then res_status_json 403 (message "No token provided.")
  else
    let token := nth_error (Js.split " " (Js.text authHeader)) 1 in
    if Js.falsy token
    then res_status_json 403 (message "No token provided.")
    else
      jwt_verify_callback env (Js.text token) (JWT_SECRET env) (fun result =>
        match result with
        | inl err => res_status_json 401 (message "Invalid token.")
        | inr decoded => next (Jwt.id decoded)
        end).

(** The body of [GET /profile], for the attribute list the route asks
    for. *)
Definition profileOf (attributes : list string) (userId : UserId) : M Response :=
  try (
    user <- User.findByPk_attributes userId attributes ;;
    match user with
    | None => res_status_json 404 (message "User not found.")
    | Some user =>
        res_status_json 200
          (JObject [ ("message", JString "Welcome to your profile!"); ("user", user) ])
    end
  ) catch (fun error =>
    console_error "Error fetching profile:" ;;
    res_status_json 500 (message "Internal server error.")).

(** [router.get("/profile", verifyToken, ...)] with
    [attributes: ["id", "username", "email"]]. *)
Definition profile (env : Env) (req : Request) : M Response :=
  verifyToken env req (profileOf ["id"; "username"; "email"]).

(** The same route in the first version of the router, written for the
    model without the [email] column: [attributes: ["id", "username"]]. *)
Definition profile_v1 (env : Env) (req : Request) : M Response :=
  verifyToken env req (profileOf ["id"; "username"]).

(** What Express's final handler answers if a handler throws. *)
Definition unhandled : Response :=
  {| status := 500; json := message "Internal Server Error" |}.

(** Serving a request: the response the client receives and the world
    afterwards. *)
Definition serve (handler : M Response) (w : World) : Response * World :=
  match handler w with
  | (Returned response, w') => (response, w')
  | (Thrown _, w') => (unhandled, w')
  end.

End Handlers.

(* ===================================================================== *)
(** ** The router before the validation schemas *)
(* ===================================================================== *)

(** The earlier router keeps the four account routes in one file and
    checks the body inline: a field must be there and not empty, and the
    email must match a regular expression.  After the checks each route
    has the body of the current one. *)

(** [\s] among the characters a string here can hold (code units below
    256): tab to carriage return, space and the no-break space. *)
Definition regex_space (c : ascii) : bool :=
  let n := N_of_ascii c in
  ((9 <=? n) && (n <=? 13)) || (n =? 32) || (n =? 160).

(** [[^\s@]] *)
Definition regex_plain (c : ascii) : bool :=
  negb (regex_space c) && negb (Ascii.eqb c "@").

(** [[^\s@]+$]: the rest of the string, not empty, all plain. *)
Fixpoint plain_plus (s : string) : bool :=
  match s with
  | EmptyString => false
  | String c EmptyString => regex_plain c
  | String c rest => regex_plain c && plain_plus rest
  end.

(** [[^\s@]+] followed by the character [sep] and by what [k] matches:
    after each plain character the matcher tries the separator, and
    goes on with the next character when the rest does not fit. *)
Fixpoint plus_then (sep : ascii) (k : string -> bool) (s : string) : bool :=
  match s with
  | EmptyString => false
  | String c rest =>
      regex_plain c &&
      (match rest with
       | String d after => Ascii.eqb d sep && k after
       | EmptyString => false
       end || plus_then sep k rest)
  end.

(** [/^[^\s@]+@[^\s@]+\.[^\s@]+$/.test(email)] *)
Definition emailRegex_test (email : string) : bool :=
  plus_then "@" (plus_then "." plain_plus) email.

Module Inline.

Section Routes.

Context {jwt : Jwt.Lib} {bcrypt : Bcrypt.Lib}.

(** [router.post("/register", ...)] *)
Definition register (env : Env) (req : Request) : M Response :=
  let username := get "username" (body req) in
  let password := get "password" (body req) in
  let email := get "email" (body req) in
  if Js.falsy username || Js.falsy password || Js.falsy email
  then res_status_json 400 (message "Username, password, and email are required.")
  else if negb (emailRegex_test (Js.text email))
  then res_status_json 400 (message "Invalid email format.")
  else
    try (
      hashedPassword <- bcrypt_hash env password 10 ;;
      newUser <- User.create username hashedPassword email ;;
      res_status_json 201
        (JObject [ ("message", JString "User registered successfully.");
                   ("userId", JUuid (Model.id newUser)) ])
    ) catch (fun error =>
      if String.eqb (name error) "SequelizeUniqueConstraintError"
      then res_status_json 400 (message "Username or email already exists.")
      else
        console_error "Error during registration:" ;;
        res_status_json 500 (message "Internal server error.")).

(** [router.post("/login", ...)] *)
Definition login (env : Env) (req : Request) : M Response :=
  let username := get "username" (body req) in
  let password := get "password" (body req) in
  if Js.falsy username || Js.falsy password
  then res_status_json 400 (message "Username and password are required.")
  else
    try (
      user <- User.findOne "username" username ;;
      match user with
      | None => res_status_json 400 (message "Invalid username or password.")
      | Some user =>
          isPasswordValid <- bcrypt_compare password (Model.password user) ;;
          if negb isPasswordValid
          then res_status_json 400 (message "Invalid username or password.")
          else
            token <- jwt_sign env (Model.id user) (JWT_SECRET env) Jwt.one_hour ;;
            res_status_json 200
              (JObject [ ("message", JString "Login successful.");
                         ("token", JString token) ])
      end
    ) catch (fun error =>
      console_error "Error during login:" ;;
      res_status_json 500 (message "Internal server error.")).

(** [router.post("/reset-password", ...)] *)
Definition resetPasswordRequest (env : Env) (req : Request) : M Response :=
  let email := get "email" (body req) in
  if Js.falsy email
  then res_status_json 400 (message "Email address is required.")
  else
    try (
      user <- User.findOne "email" email ;;
      match user with
      | None => res_status_json 404 (message "Email not found.")
      | Some user =>
          resetToken <- jwt_sign env (Model.id user) (JWT_SECRET env) Jwt.one_hour ;;
          let resetLink := FRONTEND_URL env ++ "/reset-password?token=" ++ resetToken in
          sendResetMail env email "Password Reset Request" (Model.username user) resetLink ;;
          res_status_json 200 (message "Reset link sent successfully.")
      end
    ) catch (fun error =>
      console_error "Error during password reset request:" ;;
      res_status_json 500 (message "Internal server error.")).

(** [router.patch("/reset-password", ...)] *)
Definition resetPassword (env : Env) (req : Request) : M Response :=
  let token := get "token" (body req) in
  let newPassword := get "newPassword" (body req) in
  if Js.falsy token || Js.falsy newPassword
  then res_status_json 400 (message "Token and new password are required.")
  else
    try (
      decoded <- jwt_verify env token (JWT_SECRET env) ;;
      user <- User.findByPk (Jwt.id decoded) ;;
      match user with
      | None => res_status_json 400 (message "Invalid token.")
      | Some user =>
          hashedPassword <- bcrypt_hash env newPassword 10 ;;
          User.update user hashedPassword ;;
          res_status_json 200 (message "Password reset successfully.")
      end
    ) catch (fun error =>
      if String.eqb (name error) "TokenExpiredError"
      then res_status_json 400 (message "Token expired.")
      else
        console_error "Error during password reset:" ;;
        res_status_json 500 (message "Internal server error.")).

End Routes.

End Inline.

(* ===================================================================== *)
(** ** Reference implementations of the libraries *)
(* ===================================================================== *)

(** Small implementations of the three interfaces, so that the handlers
    run on concrete requests.  They have the shape of the real libraries
    (a three-part token, a crypt-format hash, rule-by-rule validation)
    and their contract, not their cryptographic strength. *)

Module Reference.

(** A keyed checksum, in the place of the HMAC and of the hash rounds. *)
Fixpoint checksum (s : string) (acc : N) : N :=
  match s with
  | EmptyString => acc
  | String c rest => checksum rest ((acc * 31 + N_of_ascii c) mod 4294967296)
  end.

(** *** Tokens: [header.payload.signature] *)

Definition header : string := "HS256".

Definition payload (i : UserId) (issued expires : N) : string :=
  Js.of_N i ++ "-" ++ Js.of_N issued ++ "-" ++ Js.of_N expires.

Definition signature (secret content : string) : string :=
  Js.of_N (checksum (secret ++ "." ++ content) 7).

Definition sign (i : UserId) (secret : string) (expiresIn now : N) : string :=
  let content := header ++ "." ++ payload i now (now + expiresIn) in
  content ++ "." ++ signature secret content.

Definition decode (p : string) : option Jwt.Claims :=
  match Js.split "-" p with
  | [a; b; c] =>
      match Js.to_N a, Js.to_N b, Js.to_N c with
      | Some i, Some issued, Some expires =>
          Some {| Jwt.id := i; Jwt.iat := issued; Jwt.exp := expires |}
      | _, _, _ => None
      end
  | _ => None
  end.

(** The checks in the order the library makes them: three parts, a
    payload that decodes, the signature, then the expiry
    ([now >= exp]). *)
Definition verify (token secret : string) (now : N) : Jwt.VerifyError + Jwt.Claims :=
  match Js.split "." token with
  | [h; p; sg] =>
      match decode p with
      | None => inl (Jwt.JsonWebTokenError "invalid token")
      | Some claims =>
          if negb (String.eqb sg (signature secret (h ++ "." ++ p)))
          then inl (Jwt.JsonWebTokenError "invalid signature")
          else if Jwt.exp claims <=? now
          then inl Jwt.TokenExpiredError
          else inr claims
      end
  | _ => inl (Jwt.JsonWebTokenError "jwt malformed")
  end.

#[global] Instance jwt : Jwt.Lib := {| Jwt.sign := sign; Jwt.verify := verify |}.

(** *** Hashes: [$2b$rounds$salt$digest] *)

Definition digit (n : N) : ascii :=
  match n with
  | 0 => "0" | 1 => "1" | 2 => "2" | 3 => "3" | 4 => "4"
  | 5 => "5" | 6 => "6" | 7 => "7" | 8 => "8" | _ => "9"
  end%char.

(** One digit per character of the data, mixed with the key. *)
Fixpoint stream (key : N) (data : string) : string :=
  match data with
  | EmptyString => EmptyString
  | String c rest =>
      let k := (key * 31 + N_of_ascii c) mod 4294967296 in
      String (digit (k mod 10)) (stream k rest)
  end.

Definition digest (rounds salt data : string) : string :=
  stream (checksum (rounds ++ "$" ++ salt) 11) data.

Definition hash (data : string) (rounds : N) (salt : string) : string :=
  let r := Js.of_N rounds in
  let s := Js.of_N (checksum salt 0) in
  "$2b$" ++ r ++ "$" ++ s ++ "$" ++ digest r s data.

Definition compare (data encrypted : string) : bool :=
  match Js.split "$" encrypted with
  | [e; v; r; s; d] =>
      String.eqb e "" && String.eqb v "2b" && String.eqb d (digest r s data)
  | _ => false
  end.

#[global] Instance bcrypt : Bcrypt.Lib := {| Bcrypt.hash := hash; Bcrypt.compare := compare |}.

(** *** Validation, rule by rule *)

Definition quoted (label : string) : string := String "034" label ++ String "034" "".

Definition code (r : Joi.Rule) : string :=
  match r with
  | Joi.alphanum => "string.alphanum"
  | Joi.min _ => "string.min"
  | Joi.max _ => "string.max"
  | Joi.pattern _ => "string.pattern.base"
  | Joi.email => "string.email"
  | Joi.required => "any.required"
  end.

(** The message the schema gives for an error code, or the default one;
    the only code the schemas leave to the default is [string.empty]. *)
Definition message_for (f : Joi.StringSchema) (code label : string) : string :=
  match get code (Joi.messages f) with
  | Some m => m
  | None =>
      if String.eqb code "string.empty"
      then quoted label ++ " is not allowed to be empty"
      else quoted label ++ " is invalid"
  end.

Fixpoint dot_before_end (s : string) : bool :=
  match s with
  | String c (String _ _ as rest) => Ascii.eqb c "." || dot_before_end rest
  | _ => false
  end.

(** The shape [local@domain.tld], without spaces: the test the first
    version of the register route made with
    [/^[^\s@]+@[^\s@]+\.[^\s@]+$/]. *)
Definition email_shaped (s : string) : bool :=
  match Js.split "@" s with
  | [local; domain] =>
      negb (String.eqb local "") &&
      Js.forallb (fun c => negb (Js.is_space c)) s &&
      match domain with
      | String _ rest => dot_before_end rest
      | EmptyString => false
      end
  | _ => false
  end.

Definition breaks (r : Joi.Rule) (v : string) : bool :=
  match r with
  | Joi.alphanum => negb (Js.forallb Js.is_alnum v)
  | Joi.min limit => N.of_nat (String.length v) <? limit
  | Joi.max limit => limit <? N.of_nat (String.length v)
  | Joi.pattern re => negb (Joi.test re v)
  | Joi.email => negb (email_shaped v)
  | Joi.required => false
  end.

Definition is_required (r : Joi.Rule) : bool :=
  match r with
  | Joi.required => true
  | _ => false
  end.

(** The first rule the value breaks, if any. *)
Definition check (label : string) (f : Joi.StringSchema) (value : option string)
  : option string :=
  match value with
  | None =>
      if existsb is_required (Joi.rules f)
      then Some (message_for f "any.required" label)
      else None
  | Some v =>
      if String.eqb v "" then Some (message_for f "string.empty" label)
      else option_map (fun r => message_for f (code r) label)
                      (find (fun r => breaks r v) (Joi.rules f))
  end.

(** The first key of the schema whose value is rejected, then the first
    key of the value the schema does not know. *)
Fixpoint validate_keys (schema : Joi.ObjectSchema) (value : Dict) : option string :=
  match schema with
  | [] => None
  | (key, f) :: rest =>
      match check key f (get key value) with
      | Some error => Some error
      | None => validate_keys rest value
      end
  end.

Definition validate (schema : Joi.ObjectSchema) (value : Dict) : option string :=
  match validate_keys schema value with
  | Some error => Some error
  | None =>
      option_map (fun kv => quoted (fst kv) ++ " is not allowed")
        (find (fun kv => negb (existsb (fun entry => String.eqb (fst entry) (fst kv)) schema))
              value)
  end.

#[global] Instance joi : Joi.Lib := {| Joi.validate := validate |}.

End Reference.

(* ===================================================================== *)
(** ** A scenario *)
(* ===================================================================== *)

(** One user, alice01, and the requests of the end-to-end run of the
    specification, over the reference libraries. *)

Module Scenario.

(** The process at second [t]. *)
Definition at_time (t : N) : Env :=
  {| JWT_SECRET := "s3cret";
     FRONTEND_URL := "http://localhost:3000";
     now := t;
     salt := "pepper";
     smtp_up := true |}.

Definition env : Env := at_time 1000.

(** One hour later, to the second. *)
Definition later : Env := at_time 4600.

Definition empty : World := {| users := []; outbox := []; trace := [] |}.

Definition alice : Model.User :=
  {| Model.id := 1;
     Model.username := "alice01";
     Model.password := Reference.hash "Abcdef1!" 10 "pepper";
     Model.email := "a@x.com" |}.

(** The world once alice has registered. *)
Definition world : World := {| users := [alice]; outbox := []; trace := [] |}.

Definition post_body (fields : Dict) : Request := {| headers := []; body := fields |}.

Definition get_with (authorization : string) : Request :=
  {| headers := [("authorization", authorization)]; body := [] |}.

Definition register_alice : Request :=
  post_body [("username", "alice01"); ("password", "Abcdef1!"); ("email", "a@x.com")].

Definition login_alice : Request :=
  post_body [("username", "alice01"); ("password", "Abcdef1!")].

Definition login_wrong : Request :=
  post_body [("username", "alice01"); ("password", "wrong")].

(** The token a login of alice at second 1000 returns. *)
Definition token : string := Reference.sign 1 "s3cret" 3600 1000.

(** A token for alice signed with another secret. *)
Definition forged : string := Reference.sign 1 "guess" 3600 1000.

(** Not a token at all. *)
Definition garbage : string := "garbage".

Definition reset_with (t : string) : Request :=
  post_body [("token", t); ("newPassword", "Zyxwvu9?")].

Definition reset_request (address : string) : Request :=
  post_body [("email", address)].

End Scenario.

(** More requests and tokens around the same user. *)

Module Cases.

(** A token, rightly signed, for a key no row has. *)
Definition stranger : string := Reference.sign 7 "s3cret" 3600 1000.

(** The process with the mail transport down. *)
Definition offline : Env :=
  {| JWT_SECRET := "s3cret";
     FRONTEND_URL := "http://localhost:3000";
     now := 1000;
     salt := "pepper";
     smtp_up := false |}.

(** A login with the password of [Scenario.reset_with]. *)
Definition login_renewed : Request :=
  Scenario.post_body [("username", "alice01"); ("password", "Zyxwvu9?")].

Definition reset_again : Request :=
  Scenario.post_body [("token", Scenario.token); ("newPassword", "Qwerty7#x")].

Definition register_bob : Request :=
  Scenario.post_body [("username", "bobby02"); ("password", "Abcdef1!"); ("email", "a@x.com")].

Definition register_unshaped : Request :=
  Scenario.post_body [("username", "bobby02"); ("password", "Abcdef1!"); ("email", "b@x")].

End Cases.

(* ===================================================================== *)
(** ** Properties *)
(* ===================================================================== *)

(** The world after some more collaborator calls were traced, the table
    and the outbox untouched. *)
Definition traced (w : World) (calls : list Event) : World :=
  {| users := users w; outbox := outbox w; trace := trace w ++ calls |}.

(** The user a [findOne] on [username] finds. *)
Definition by_username (w : World) (username : string) : option Model.User :=
  find (fun u => String.eqb (Model.username u) username) (users w).

(** The user a [findOne] on [email] finds. *)
Definition by_email (w : World) (email : string) : option Model.User :=
  find (fun u => String.eqb (Model.email u) email) (users w).

(** The user a [findByPk] finds. *)
Definition by_id (w : World) (pk : UserId) : option Model.User :=
  find (fun u => Model.id u =? pk) (users w).

(** The table after [user.update({ password })]. *)
Definition with_password (pk : UserId) (password : string) (us : list Model.User)
  : list Model.User :=
  map (fun u => if Model.id u =? pk then User.set_password password u else u) us.

(** The token service of the specification, [issue(subject_id)]: the
    token signed over the subject with the process secret, expiring one
    hour after the instant of issuance. *)
Definition issue {jwt : Jwt.Lib} (env : Env) (subject_id : UserId) : string :=
  Jwt.sign subject_id (JWT_SECRET env) Jwt.one_hour (now env).

(** The responses the error kinds of the specification stand for. *)
Definition TokenExpired : Response :=
  {| status := 400; json := message "Token expired." |}.
Definition InvalidToken (code : N) : Response :=
  {| status := code; json := message "Invalid token." |}.
Definition InternalError : Response :=
  {| status := 500; json := message "Internal server error." |}.
Definition InvalidCredentials : Response :=
  {| status := 400; json := message "Invalid username or password." |}.
Definition EmailNotFound : Response :=
  {| status := 404; json := message "Email not found." |}.
Definition NoTokenProvided : Response :=
  {| status := 403; json := message "No token provided." |}.

(** No two rows share a primary key, a username or an email. *)
Definition well_formed (w : World) : Prop :=
  NoDup (map Model.id (users w)) /\
  NoDup (map Model.username (users w)) /\
  NoDup (map Model.email (users w)).

(** The handler comes back with a response: no exception leaves it. *)
Definition answers (handler : M Response) (w : World) : Prop :=
  exists response w', handler w = (Returned response, w').

(** The body of a successful profile answer for a row. *)
Definition profile_of (u : Model.User) : Json :=
  JObject [ ("message", JString "Welcome to your profile!");
            ("user", JObject [ ("id", JUuid (Model.id u));
                               ("username", JString (Model.username u));
                               ("email", JString (Model.email u)) ]) ].

(** The mail a reset request sends for a row. *)
Definition reset_mail {jwt : Jwt.Lib} (env : Env) (address : string) (u : Model.User)
  : Mail :=
  {| to := address;
     subject := "Password Reset Request";
     recipient_name := Model.username u;
     link := FRONTEND_URL env ++ "/reset-password?token=" ++ issue env (Model.id u) |}.

(** The row a registration appends. *)
Definition registered {bcrypt : Bcrypt.Lib} (env : Env) (w : World)
    (username password email : string) : Model.User :=
  {| Model.id := User.fresh_id (users w);
     Model.username := username;
     Model.password := Bcrypt.hash password 10 (salt env);
     Model.email := email |}.

(** The language of the email expression, read off it: a local part, an
    at sign, a domain, a dot and a last part, the three parts not empty
    and free of white space and of at signs. *)
Definition email_language (s : string) : Prop :=
  exists a b c,
    s = a ++ "@" ++ b ++ "." ++ c /\
    a <> "" /\ b <> "" /\ c <> "" /\
    Js.forallb regex_plain a = true /\
    Js.forallb regex_plain b = true /\
    Js.forallb regex_plain c = true.

(** Unfolding a handler down to the world it transforms. *)
Ltac run :=
  unfold serve, register, login, resetPasswordRequest, resetPassword, profile,
    profile_v1, verifyToken, profileOf, jwt_sign, jwt_verify, jwt_verify_callback,
    bcrypt_hash, bcrypt_compare, sendResetMail, User.findOne,
    User.findByPk_attributes, User.findByPk, User.create, User.update, console_error,
    res_status_json, try_catch, bind, ret, throw, emit, post, get_users, put_users,
    traced, by_username, by_email, by_id in *;
  cbn [users outbox trace fst snd] in *.

(** The same for the router with the inline checks. *)
Ltac run_inline :=
  unfold serve, Inline.register, Inline.login, Inline.resetPasswordRequest,
    Inline.resetPassword, jwt_sign, jwt_verify, bcrypt_hash, bcrypt_compare,
    sendResetMail, User.findOne, User.findByPk, User.create, User.update,
    console_error, res_status_json, try_catch, bind, ret, throw, emit, post,
    get_users, put_users, traced, by_username, by_email, by_id in *;
  cbn [users outbox trace fst snd] in *.

(** Following every branch a handler can take. *)
Ltac paths :=
  repeat first
    [ progress cbn [fst snd users outbox trace negb orb andb option_map]
    | match goal with
      | |- context [Js.falsy ?x] => destruct (Js.falsy x) eqn:?
    | |- context [match Joi.validate ?s ?b with _ => _ end] => destruct (Joi.validate s b)
    | |- context [match get ?k ?b with _ => _ end] => destruct (get k b) eqn:?
    | |- context [find ?p ?l] => destruct (find p l) eqn:?
    | |- context [if User.taken ?a ?b ?c then _ else _] => destruct (User.taken a b c) eqn:?
    | |- context [Bcrypt.compare ?a ?b] => destruct (Bcrypt.compare a b) eqn:?
    | |- context [match Jwt.verify ?a ?b ?c with _ => _ end] =>
        destruct (Jwt.verify a b c) eqn:?
    | |- context [if smtp_up ?e then _ else _] => destruct (smtp_up e) eqn:?
    | |- context [if String.eqb (name ?e) ?b then _ else _] =>
        destruct (String.eqb (name e) b) eqn:?
    | |- context [if negb (emailRegex_test ?a) then _ else _] =>
        destruct (emailRegex_test a) eqn:?
    end ].

Section Flows.

Context {jwt : Jwt.Lib} {bcrypt : Bcrypt.Lib} {joi : Joi.Lib}.

(** A token that fails verification stops the reset before the table is
    touched: the expired one with "Token expired.", every other one in
    the general branch of the handler. *)
Lemma resetPassword_verify_failure (env : Env) (req : Request) (w : World)
    (token : string) (e : Jwt.VerifyError) :
  Joi.validate newPasswordSchema (body req) = None ->
  get "token" (body req) = Some token ->
  Jwt.verify token (JWT_SECRET env) (now env) = inl e ->
  serve (resetPassword env req) w =
  if String.eqb (Jwt.name e) "TokenExpiredError"
  then (TokenExpired, traced w [JwtVerify (Some token)])
  else (InternalError,
        traced w [JwtVerify (Some token); ConsoleError "Error during password reset:"]).
Proof.
  intros Hvalid Htoken Hverify. run.
  rewrite Hvalid, Htoken, Hverify. cbn.
  destruct (String.eqb (Jwt.name e) "TokenExpiredError"); cbn.
  - reflexivity.
  - rewrite <- app_assoc. reflexivity.
Qed.

(** C4. Reset-confirm with an expired token answers "Token expired."
    (TokenExpired) and leaves the user table, hence every password hash,
    as it was: the only collaborator called is the token verification. *)
Theorem C4_expired_reset_token_changes_nothing (env : Env) (req : Request) (w : World)
    (token : string) :
  Joi.validate newPasswordSchema (body req) = None ->
  get "token" (body req) = Some token ->
  Jwt.verify token (JWT_SECRET env) (now env) = inl Jwt.TokenExpiredError ->
  serve (resetPassword env req) w = (TokenExpired, traced w [JwtVerify (Some token)])
  /\ users (snd (serve (resetPassword env req) w)) = users w.
Proof.
  intros Hvalid Htoken Hverify.
  rewrite (resetPassword_verify_failure env req w token _ Hvalid Htoken Hverify).
  split; reflexivity.
Qed.

End Flows.

(** *** Splitting *)

Lemma split_nonempty (sep : ascii) (s : string) : Js.split sep s <> [].
Proof.
  destruct s as [|c rest]; cbn; [discriminate|].
  destruct (Ascii.eqb c sep); [discriminate|].
  destruct (Js.split sep rest); discriminate.
Qed.

(** A string without the separator is its own single piece. *)
Lemma split_free (sep : ascii) (s : string) :
  Js.free_of sep s = true -> Js.split sep s = [s].
Proof.
  induction s as [|c rest IH]; cbn; [reflexivity|].
  intros H. apply andb_true_iff in H. destruct H as [Hc Hrest].
  apply negb_true_iff in Hc. rewrite Hc, (IH Hrest). reflexivity.
Qed.

(** The first piece ends at the first separator. *)
Lemma split_app (sep : ascii) (a b : string) :
  Js.free_of sep a = true ->
  Js.split sep (a ++ String sep b) = a :: Js.split sep b.
Proof.
  induction a as [|c rest IH]; cbn.
  - intros _. rewrite Ascii.eqb_refl. reflexivity.
  - intros H. apply andb_true_iff in H. destruct H as [Hc Hrest].
    apply negb_true_iff in Hc. rewrite Hc, (IH Hrest). reflexivity.
Qed.

(** [scheme token] splits into the scheme and the token. *)
Lemma split_header (scheme token : string) :
  Js.free_of " " scheme = true ->
  Js.free_of " " token = true ->
  nth_error (Js.split " " (scheme ++ " " ++ token)) 1 = Some token.
Proof.
  intros Hs Ht. change (scheme ++ " " ++ token) with (scheme ++ String " " token).
  rewrite (split_app _ _ _ Hs), (split_free _ _ Ht). reflexivity.
Qed.

Section Middleware.

Context {jwt : Jwt.Lib}.

(** With a second word in the header, the middleware verifies that word
    and nothing else decides: a failure answers "Invalid token.", a
    success hands the decoded subject to the route. *)
Lemma verifyToken_word (env : Env) (req : Request) (next : UserId -> M Response)
    (w : World) (header token : string) :
  get "authorization" (headers req) = Some header ->
  nth_error (Js.split " " header) 1 = Some token ->
  token <> "" ->
  serve (verifyToken env req next) w =
  match Jwt.verify token (JWT_SECRET env) (now env) with
  | inl _ => (InvalidToken 401, traced w [JwtVerify (Some token)])
  | inr decoded => serve (next (Jwt.id decoded)) (traced w [JwtVerify (Some token)])
  end.
Proof.
  intros Hheader Hword Hne. run. rewrite Hheader. cbn [Js.falsy Js.text].
  destruct header as [|c rest]; [discriminate Hword|]. cbn [String.eqb].
  rewrite Hword. cbn [Js.falsy Js.text].
  destruct token as [|d more]; [contradiction Hne; reflexivity|]. cbn [String.eqb].
  destruct (Jwt.verify (String d more) (JWT_SECRET env) (now env)); reflexivity.
Qed.

(** Without a second word the middleware answers at once. *)
Lemma verifyToken_no_word (env : Env) (req : Request) (next : UserId -> M Response)
    (w : World) :
  Js.falsy (nth_error (Js.split " " (Js.text (get "authorization" (headers req)))) 1) = true ->
  serve (verifyToken env req next) w = (NoTokenProvided, w).
Proof.
  intros H. run.
  destruct (Js.falsy (get "authorization" (headers req))); [reflexivity|].
  rewrite H. reflexivity.
Qed.

(** C2 (as amended). In profile retrieval every failure of the token
    verification, expiry as much as a bad signature or a malformed
    token, is answered with the same 401 "Invalid token."; the table is
    not read. *)
Theorem C2_every_verify_failure_answers_invalid_token (env : Env) (req : Request)
    (w : World) (header token : string) (e : Jwt.VerifyError) :
  get "authorization" (headers req) = Some header ->
  nth_error (Js.split " " header) 1 = Some token ->
  token <> "" ->
  Jwt.verify token (JWT_SECRET env) (now env) = inl e ->
  serve (profile env req) w = (InvalidToken 401, traced w [JwtVerify (Some token)]).
Proof.
  intros Hheader Hword Hne Hverify. unfold profile.
  rewrite (verifyToken_word env req _ w header token Hheader Hword Hne), Hverify.
  reflexivity.
Qed.

(** C10. A request without an Authorization header, or whose header has
    no second space-separated word, is answered 403 "No token provided."
    with the world untouched (no verification, no query), an answer
    other than the one for a token that fails; and the first word of the
    header is never looked at: whatever it is, a token that
    verifies lets the request through to the route with the decoded
    subject. *)
Theorem C10_no_token_and_any_scheme (env : Env) (req : Request) (w : World)
    (next : UserId -> M Response) :
  (get "authorization" (headers req) = None ->
   serve (profile env req) w = (NoTokenProvided, w))
  /\ (forall header,
        get "authorization" (headers req) = Some header ->
        nth_error (Js.split " " header) 1 = None ->
        serve (profile env req) w = (NoTokenProvided, w))
  /\ (forall scheme token decoded,
        Js.free_of " " scheme = true ->
        Js.free_of " " token = true ->
        token <> "" ->
        get "authorization" (headers req) = Some (scheme ++ " " ++ token) ->
        Jwt.verify token (JWT_SECRET env) (now env) = inr decoded ->
        serve (verifyToken env req next) w =
        serve (next (Jwt.id decoded)) (traced w [JwtVerify (Some token)]))
  /\ NoTokenProvided <> InvalidToken 401.
Proof.
  split; [|split; [|split; [|discriminate]]].
  - intros Hnone. apply verifyToken_no_word. rewrite Hnone. reflexivity.
  - intros header Hheader Hword. apply verifyToken_no_word.
    rewrite Hheader. cbn [Js.text]. rewrite Hword. reflexivity.
  - intros scheme token decoded Hs Ht Hne Hheader Hverify.
    rewrite (verifyToken_word env req next w _ token Hheader
               (split_header _ _ Hs Ht) Hne), Hverify.
    reflexivity.
Qed.

End Middleware.

Section Lifetime.

Context {jwt : Jwt.Lib} {laws : Jwt.Laws jwt}.

(** An issued token decodes to its subject strictly before the hour is
    over. *)
Lemma issue_verifies (env : Env) (i : UserId) (t : N) :
  t < now env + 3600 ->
  Jwt.verify (issue env i) (JWT_SECRET env) t =
  inr {| Jwt.id := i; Jwt.iat := now env; Jwt.exp := now env + 3600 |}.
Proof.
  intros Ht. unfold issue. rewrite Jwt.verify_sign. unfold Jwt.one_hour.
  apply N.ltb_lt in Ht. rewrite Ht. reflexivity.
Qed.

(** From the end of the hour on it is expired. *)
Lemma issue_expires (env : Env) (i : UserId) (t : N) :
  now env + 3600 <= t ->
  Jwt.verify (issue env i) (JWT_SECRET env) t = inl Jwt.TokenExpiredError.
Proof.
  intros Ht. unfold issue. rewrite Jwt.verify_sign. unfold Jwt.one_hour.
  apply N.ltb_ge in Ht. rewrite Ht. reflexivity.
Qed.

End Lifetime.

Section Accounts.

Context {jwt : Jwt.Lib} {bcrypt : Bcrypt.Lib} {joi : Joi.Lib}.

(** C9. A reset request for an accepted email address that no row
    carries answers 404 "Email not found." (EmailNotFound); the single
    collaborator call is the query, so the mailer is not called and the
    outbox stays as it was. *)
Theorem C9_unknown_email_sends_no_mail (env : Env) (req : Request) (w : World)
    (email : string) :
  Joi.validate resetPasswordSchema (body req) = None ->
  get "email" (body req) = Some email ->
  by_email w email = None ->
  serve (resetPasswordRequest env req) w =
    (EmailNotFound, traced w [DbFindOne "email" (Some email)])
  /\ outbox (snd (serve (resetPasswordRequest env req) w)) = outbox w.
Proof.
  intros Hvalid Hemail Hnone.
  assert (Hrun : serve (resetPasswordRequest env req) w =
                 (EmailNotFound, traced w [DbFindOne "email" (Some email)])).
  { run. rewrite Hvalid, Hemail. cbn. rewrite Hnone. reflexivity. }
  rewrite Hrun. split; reflexivity.
Qed.

(** Login when no row has the username. *)
Lemma login_unknown_user (env : Env) (req : Request) (w : World)
    (username : string) :
  Joi.validate loginSchema (body req) = None ->
  get "username" (body req) = Some username ->
  by_username w username = None ->
  serve (login env req) w =
    (InvalidCredentials, traced w [DbFindOne "username" (Some username)]).
Proof.
  intros Hvalid Husername Hnone. run.
  rewrite Hvalid, Husername. cbn. rewrite Hnone. reflexivity.
Qed.

(** Login when the row is there: the password comparison decides. *)
Lemma login_known_user (env : Env) (req : Request) (w : World)
    (username password : string) (u : Model.User) :
  Joi.validate loginSchema (body req) = None ->
  get "username" (body req) = Some username ->
  get "password" (body req) = Some password ->
  by_username w username = Some u ->
  serve (login env req) w =
    if Bcrypt.compare password (Model.password u)
    then ({| status := 200;
             json := JObject
               [ ("message", JString "Login successful.");
                 ("token", JString (Jwt.sign (Model.id u) (JWT_SECRET env)
                                             Jwt.one_hour (now env))) ] |},
          traced w [DbFindOne "username" (Some username); BcryptCompare;
                    JwtSign (Model.id u)])
    else (InvalidCredentials,
          traced w [DbFindOne "username" (Some username); BcryptCompare]).
Proof.
  intros Hvalid Husername Hpassword Hfound. run.
  rewrite Hvalid, Husername, Hpassword. cbn. rewrite Hfound. cbn.
  destruct (Bcrypt.compare password (Model.password u)); cbn;
    repeat rewrite <- app_assoc; reflexivity.
Qed.

(** C7. For one login input, the answer when no user has the username
    and the answer when the user exists and the password does not verify
    are the same response, 400 "Invalid username or password.". *)
Theorem C7_login_failures_are_identical (env env' : Env) (req : Request)
    (w w' : World) (username password : string) (u : Model.User) :
  Joi.validate loginSchema (body req) = None ->
  get "username" (body req) = Some username ->
  get "password" (body req) = Some password ->
  by_username w username = None ->
  by_username w' username = Some u ->
  Bcrypt.compare password (Model.password u) = false ->
  fst (serve (login env req) w) = fst (serve (login env' req) w')
  /\ fst (serve (login env req) w) = InvalidCredentials.
Proof.
  intros Hvalid Husername Hpassword Hnone Hsome Hwrong.
  rewrite (login_unknown_user env req w username Hvalid Husername Hnone).
  rewrite (login_known_user env' req w' username password u
             Hvalid Husername Hpassword Hsome), Hwrong.
  split; reflexivity.
Qed.

(** The new primary key is the key of no row. *)
Lemma fresh_id_above (us : list Model.User) (u : Model.User) :
  In u us -> Model.id u < User.fresh_id us.
Proof.
  unfold User.fresh_id. induction us as [|v rest IH]; cbn; [contradiction|].
  intros [Heq | Hin].
  - subst v. lia.
  - specialize (IH Hin). lia.
Qed.

(** C5. A registration input the validator accepts, whose username and
    email no row has, is answered 201 with the id of the row it appends;
    the password stored in that row is the bcrypt hash, which verifies
    against the plaintext and is not the plaintext. *)
Theorem C5_registration_stores_a_verifying_hash {laws : Bcrypt.Laws bcrypt}
    (env : Env) (req : Request) (w : World) (username password email : string) :
  Joi.validate registerSchema (body req) = None ->
  get "username" (body req) = Some username ->
  get "password" (body req) = Some password ->
  get "email" (body req) = Some email ->
  User.taken username email (users w) = false ->
  exists newUser,
    serve (register env req) w =
      ({| status := 201;
          json := JObject [ ("message", JString "User registered successfully.");
                            ("userId", JUuid (Model.id newUser)) ] |},
       {| users := users w ++ [newUser];
          outbox := outbox w;
          trace := trace w ++ [BcryptHash; DbCreate (Some username) (Some email)] |})
    /\ Model.username newUser = username
    /\ Model.email newUser = email
    /\ Model.password newUser = Bcrypt.hash password 10 (salt env)
    /\ (forall u, In u (users w) -> Model.id u <> Model.id newUser)
    /\ Bcrypt.compare password (Model.password newUser) = true
    /\ Model.password newUser <> password.
Proof.
  intros Hvalid Husername Hpassword Hemail Hfree.
  exists {| Model.id := User.fresh_id (users w); Model.username := username;
            Model.password := Bcrypt.hash password 10 (salt env);
            Model.email := email |}.
  cbn [Model.id Model.username Model.password Model.email].
  repeat split.
  - run. rewrite Hvalid, Husername, Hpassword, Hemail.
    cbn -[User.taken User.fresh_id]. rewrite Hfree. cbn -[User.fresh_id].
    rewrite <- app_assoc. reflexivity.
  - intros u Hin Heq. pose proof (fresh_id_above (users w) u Hin). lia.
  - apply Bcrypt.compare_hash.
  - apply Bcrypt.hash_opaque.
Qed.

(** C6. A login with the password that verifies against the stored hash
    is answered 200 with a token which, under the same secret, verifies
    to the user's id at every instant strictly before one hour after
    issuance, and is reported expired at every instant from then on. *)
Theorem C6_login_token_lifetime {laws : Jwt.Laws jwt}
    (env : Env) (req : Request) (w : World) (username password : string)
    (u : Model.User) :
  Joi.validate loginSchema (body req) = None ->
  get "username" (body req) = Some username ->
  get "password" (body req) = Some password ->
  by_username w username = Some u ->
  Bcrypt.compare password (Model.password u) = true ->
  exists token,
    fst (serve (login env req) w) =
      {| status := 200;
         json := JObject [ ("message", JString "Login successful.");
                           ("token", JString token) ] |}
    /\ (forall t, t < now env + 3600 ->
          Jwt.verify token (JWT_SECRET env) t =
          inr {| Jwt.id := Model.id u; Jwt.iat := now env; Jwt.exp := now env + 3600 |})
    /\ (forall t, now env + 3600 <= t ->
          Jwt.verify token (JWT_SECRET env) t = inl Jwt.TokenExpiredError).
Proof.
  intros Hvalid Husername Hpassword Hfound Hright.
  exists (issue env (Model.id u)).
  rewrite (login_known_user env req w username password u
             Hvalid Husername Hpassword Hfound), Hright.
  split; [reflexivity|].
  split; intros t Ht.
  - apply issue_verifies. exact Ht.
  - apply issue_expires. exact Ht.
Qed.

End Accounts.

Section Profile.

Context {jwt : Jwt.Lib}.

(** The route once the middleware has let the request through. *)
Lemma profileOf_run (attributes : list string) (pk : UserId) (w : World) :
  serve (profileOf attributes pk) w =
  match by_id w pk with
  | Some u =>
      ({| status := 200;
          json := JObject [ ("message", JString "Welcome to your profile!");
                            ("user", User.select attributes u) ] |},
       traced w [DbFindByPk pk])
  | None =>
      ({| status := 404; json := message "User not found." |},
       traced w [DbFindByPk pk])
  end.
Proof.
  run. destruct (find (fun u => Model.id u =? pk) (users w)); reflexivity.
Qed.

(** What the middleware answers by itself carries a message and nothing
    else; so a key is in the response only if the route put it there. *)
Lemma verifyToken_keys (env : Env) (req : Request) (next : UserId -> M Response)
    (w : World) (key : string) :
  key <> "message" ->
  (forall pk w', ~ In key (keys (json (fst (serve (next pk) w'))))) ->
  ~ In key (keys (json (fst (serve (verifyToken env req next) w)))).
Proof.
  intros Hkey Hnext.
  assert (Hmessage : forall text, ~ In key (keys (message text))).
  { intros text [Heq | []]. apply Hkey. symmetry. exact Heq. }
  unfold verifyToken.
  destruct (Js.falsy (get "authorization" (headers req))); [apply Hmessage|].
  destruct (Js.falsy (nth_error _ 1)); [apply Hmessage|].
  unfold jwt_verify_callback, serve, bind, emit.
  destruct (Jwt.verify _ _ _) as [e | decoded].
  - apply Hmessage.
  - apply (Hnext (Jwt.id decoded)).
Qed.

(** A 200 answer comes from the route, run on the same table. *)
Lemma verifyToken_passed (env : Env) (req : Request) (next : UserId -> M Response)
    (w : World) :
  status (fst (serve (verifyToken env req next) w)) = 200 ->
  exists pk w1,
    users w1 = users w /\
    serve (verifyToken env req next) w = serve (next pk) w1.
Proof.
  unfold verifyToken.
  destruct (Js.falsy (get "authorization" (headers req))); [discriminate|].
  destruct (Js.falsy (nth_error _ 1)); [discriminate|].
  unfold jwt_verify_callback.
  match goal with
  | |- context [Jwt.verify ?t ?s ?n] => destruct (Jwt.verify t s n) as [e | decoded] eqn:Hverify
  end.
  - unfold serve, bind, emit. cbn. discriminate.
  - intros _. exists (Jwt.id decoded). eexists (traced w [JwtVerify _]).
    split; [reflexivity|].
    unfold serve, bind, emit. reflexivity.
Qed.

Lemma profileOf_keys (attributes : list string) (pk : UserId) (w : World) :
  attributes = ["id"; "username"; "email"] \/ attributes = ["id"; "username"] ->
  ~ In "password" (keys (json (fst (serve (profileOf attributes pk) w)))).
Proof.
  intros Hattributes. rewrite profileOf_run.
  destruct (by_id w pk) as [u|]; destruct Hattributes as [-> | ->]; cbn;
    intuition discriminate.
Qed.

(** C3. When the token verifies and the row of its subject exists, the
    profile route answers 200 with exactly the id, username and email of
    that row; a 200 answer always has that form, for a row of the table;
    and no answer of the route, whatever the outcome, has a [password]
    key (nor has any of the first version of the route). *)
Theorem C3_profile_returns_public_projection (env : Env) (req : Request) (w : World) :
  (forall header token decoded u,
     get "authorization" (headers req) = Some header ->
     nth_error (Js.split " " header) 1 = Some token ->
     token <> "" ->
     Jwt.verify token (JWT_SECRET env) (now env) = inr decoded ->
     by_id w (Jwt.id decoded) = Some u ->
     fst (serve (profile env req) w) =
       {| status := 200;
          json := JObject
            [ ("message", JString "Welcome to your profile!");
              ("user", JObject [ ("id", JUuid (Model.id u));
                                 ("username", JString (Model.username u));
                                 ("email", JString (Model.email u)) ]) ] |})
  /\ (status (fst (serve (profile env req) w)) = 200 ->
      exists u, In u (users w) /\
        json (fst (serve (profile env req) w)) =
          JObject
            [ ("message", JString "Welcome to your profile!");
              ("user", JObject [ ("id", JUuid (Model.id u));
                                 ("username", JString (Model.username u));
                                 ("email", JString (Model.email u)) ]) ])
  /\ ~ In "password" (keys (json (fst (serve (profile env req) w))))
  /\ ~ In "password" (keys (json (fst (serve (profile_v1 env req) w)))).
Proof.
  split; [|split; [|split]].
  - intros header token decoded u Hheader Hword Hne Hverify Hfound. unfold profile.
    rewrite (verifyToken_word env req _ w header token Hheader Hword Hne), Hverify.
    rewrite profileOf_run.
    change (by_id (traced w [JwtVerify (Some token)]) (Jwt.id decoded))
      with (by_id w (Jwt.id decoded)).
    rewrite Hfound. reflexivity.
  - intros Hok.
    destruct (verifyToken_passed env req _ w Hok) as (pk & w1 & Husers & Hrun).
    unfold profile in *. rewrite Hrun in *. rewrite profileOf_run in *.
    destruct (by_id w1 pk) as [u|] eqn:Hfound; [|discriminate Hok].
    exists u. split; [|reflexivity].
    apply find_some in Hfound. rewrite <- Husers. exact (proj1 Hfound).
  - apply verifyToken_keys; [discriminate|]. intros pk w'.
    apply profileOf_keys. left. reflexivity.
  - apply verifyToken_keys; [discriminate|]. intros pk w'.
    apply profileOf_keys. right. reflexivity.
Qed.

End Profile.

Section Tokens.

Context {jwt : Jwt.Lib} {bcrypt : Bcrypt.Lib} {joi : Joi.Lib}.

(** Reset-confirm with a token that verifies, for a subject that exists:
    the row's password becomes the hash of the new one. *)
Lemma resetPassword_accepts (env : Env) (req : Request) (w : World)
    (token newPassword : string) (decoded : Jwt.Claims) (u : Model.User) :
  Joi.validate newPasswordSchema (body req) = None ->
  get "token" (body req) = Some token ->
  get "newPassword" (body req) = Some newPassword ->
  Jwt.verify token (JWT_SECRET env) (now env) = inr decoded ->
  by_id w (Jwt.id decoded) = Some u ->
  serve (resetPassword env req) w =
    ({| status := 200; json := message "Password reset successfully." |},
     {| users := with_password (Model.id u)
                   (Bcrypt.hash newPassword 10 (salt env)) (users w);
        outbox := outbox w;
        trace := trace w ++ [JwtVerify (Some token); DbFindByPk (Jwt.id decoded);
                             BcryptHash; DbUpdate (Model.id u)] |}).
Proof.
  intros Hvalid Htoken Hnew Hverify Hfound. run.
  rewrite Hvalid, Htoken, Hnew, Hverify. cbn. rewrite Hfound. cbn.
  repeat rewrite <- app_assoc. reflexivity.
Qed.

(** Reset-request for an address a row carries, the transport up. *)
Lemma resetPasswordRequest_mails (env : Env) (req : Request) (w : World)
    (email : string) (u : Model.User) :
  Joi.validate resetPasswordSchema (body req) = None ->
  get "email" (body req) = Some email ->
  by_email w email = Some u ->
  smtp_up env = true ->
  serve (resetPasswordRequest env req) w =
    ({| status := 200; json := message "Reset link sent successfully." |},
     {| users := users w;
        outbox := outbox w ++
          [ {| to := email;
               subject := "Password Reset Request";
               recipient_name := Model.username u;
               link := FRONTEND_URL env ++ "/reset-password?token=" ++
                       Jwt.sign (Model.id u) (JWT_SECRET env) Jwt.one_hour (now env) |} ];
        trace := trace w ++ [DbFindOne "email" (Some email); JwtSign (Model.id u);
                             MailSend (Some email)] |}).
Proof.
  intros Hvalid Hemail Hfound Hup. run.
  rewrite Hvalid, Hemail. cbn. rewrite Hfound. cbn. rewrite Hup. cbn.
  repeat rewrite <- app_assoc. reflexivity.
Qed.

(** C8. Login and reset-request issue, for a user, the same function of
    the user's id: the token signed over [{ id }] with the process
    secret and a one-hour expiry, nothing in it telling the purpose.  So
    within the hour the token from either is let through by the profile
    middleware and is accepted by reset-confirm, which rewrites the
    password. *)
Theorem C8_session_and_reset_tokens_are_interchangeable {laws : Jwt.Laws jwt}
    (env : Env) (u : Model.User) :
  let token := issue env (Model.id u) in
  (forall req w username password,
     Joi.validate loginSchema (body req) = None ->
     get "username" (body req) = Some username ->
     get "password" (body req) = Some password ->
     by_username w username = Some u ->
     Bcrypt.compare password (Model.password u) = true ->
     json (fst (serve (login env req) w)) =
       JObject [("message", JString "Login successful."); ("token", JString token)])
  /\ (forall req w email,
        Joi.validate resetPasswordSchema (body req) = None ->
        get "email" (body req) = Some email ->
        by_email w email = Some u ->
        smtp_up env = true ->
        map link (outbox (snd (serve (resetPasswordRequest env req) w))) =
          (map link (outbox w) ++
           [(FRONTEND_URL env ++ "/reset-password?token=" ++ token)%string])%list)
  /\ (forall t, t < now env + 3600 ->
        Jwt.verify token (JWT_SECRET env) t =
          inr {| Jwt.id := Model.id u; Jwt.iat := now env; Jwt.exp := now env + 3600 |})
  /\ (forall env' req w next,
        JWT_SECRET env' = JWT_SECRET env ->
        now env' < now env + 3600 ->
        get "authorization" (headers req) = Some ("Bearer " ++ token) ->
        serve (verifyToken env' req next) w =
          serve (next (Model.id u)) (traced w [JwtVerify (Some token)]))
  /\ (forall env' req w newPassword v,
        JWT_SECRET env' = JWT_SECRET env ->
        now env' < now env + 3600 ->
        Joi.validate newPasswordSchema (body req) = None ->
        get "token" (body req) = Some token ->
        get "newPassword" (body req) = Some newPassword ->
        by_id w (Model.id u) = Some v ->
        fst (serve (resetPassword env' req) w) =
          {| status := 200; json := message "Password reset successfully." |}
        /\ users (snd (serve (resetPassword env' req) w)) =
             with_password (Model.id v) (Bcrypt.hash newPassword 10 (salt env')) (users w)).
Proof.
  intros token.
  assert (Hfresh : forall t, t < now env + 3600 ->
            Jwt.verify token (JWT_SECRET env) t =
              inr {| Jwt.id := Model.id u; Jwt.iat := now env; Jwt.exp := now env + 3600 |}).
  { intros t Ht. apply issue_verifies. exact Ht. }
  split; [|split; [|split; [|split]]].
  - intros req w username password Hvalid Husername Hpassword Hfound Hright.
    rewrite (login_known_user env req w username password u
               Hvalid Husername Hpassword Hfound), Hright.
    reflexivity.
  - intros req w email Hvalid Hemail Hfound Hup.
    rewrite (resetPasswordRequest_mails env req w email u Hvalid Hemail Hfound Hup).
    cbn [snd outbox]. rewrite map_app. reflexivity.
  - exact Hfresh.
  - intros env' req w next Hsecret Hnow Hheader.
    destruct (Jwt.sign_word (Model.id u) (JWT_SECRET env) Jwt.one_hour (now env))
      as [Hne Hword]. fold (issue env (Model.id u)) in Hne, Hword. fold token in Hne, Hword.
    rewrite (verifyToken_word env' req next w ("Bearer " ++ token) token Hheader
               (split_header "Bearer" token eq_refl Hword) Hne).
    rewrite Hsecret, (Hfresh _ Hnow). reflexivity.
  - intros env' req w newPassword v Hsecret Hnow Hvalid Htoken Hnew Hfound.
    pose proof (Hfresh _ Hnow) as Hverify. rewrite <- Hsecret in Hverify.
    rewrite (resetPassword_accepts env' req w token newPassword _ v
               Hvalid Htoken Hnew Hverify Hfound).
    split; reflexivity.
Qed.

End Tokens.

(* ===================================================================== *)
(** ** The reference libraries keep the contracts *)
(* ===================================================================== *)

Lemma uint_digits (d : Decimal.uint) :
  Js.forallb Js.is_digit (NilEmpty.string_of_uint d) = true.
Proof.
  induction d; cbn; try reflexivity; assumption.
Qed.

Lemma of_N_digits (n : N) : Js.forallb Js.is_digit (Js.of_N n) = true.
Proof.
  apply uint_digits.
Qed.

Lemma to_N_of_N (n : N) : Js.to_N (Js.of_N n) = Some n.
Proof.
  unfold Js.to_N, Js.of_N. rewrite NilEmpty.usu. cbn.
  rewrite DecimalN.Unsigned.of_to. reflexivity.
Qed.

(** A string of digits has none of the separators. *)
Lemma digits_free (c : ascii) (s : string) :
  Js.is_digit c = false ->
  Js.forallb Js.is_digit s = true ->
  Js.free_of c s = true.
Proof.
  intros Hc. induction s as [|d rest IH]; cbn; [reflexivity|].
  intros H. apply andb_true_iff in H. destruct H as [Hd Hrest].
  rewrite (IH Hrest), andb_true_r. apply negb_true_iff.
  destruct (Ascii.eqb_spec d c) as [-> |]; [congruence | reflexivity].
Qed.

Lemma of_N_free (c : ascii) (n : N) :
  Js.is_digit c = false -> Js.free_of c (Js.of_N n) = true.
Proof.
  intros Hc. apply digits_free; [exact Hc | apply of_N_digits].
Qed.

Lemma free_of_app (c : ascii) (a b : string) :
  Js.free_of c (a ++ b) = Js.free_of c a && Js.free_of c b.
Proof.
  induction a as [|d rest IH]; cbn; [reflexivity|].
  rewrite IH, andb_assoc. reflexivity.
Qed.

Lemma length_app (a b : string) :
  String.length (a ++ b) = (String.length a + String.length b)%nat.
Proof.
  induction a as [|c rest IH]; cbn; [reflexivity|]. rewrite IH. reflexivity.
Qed.

Lemma digit_is_digit (n : N) : Js.is_digit (Reference.digit n) = true.
Proof.
  destruct n as [|p]; [reflexivity|].
  do 4 (try (destruct p as [p|p|]; try reflexivity)).
Qed.

Lemma stream_digits (key : N) (data : string) :
  Js.forallb Js.is_digit (Reference.stream key data) = true.
Proof.
  revert key. induction data as [|c rest IH]; intros key; cbn; [reflexivity|].
  rewrite digit_is_digit, IH. reflexivity.
Qed.

Lemma stream_length (key : N) (data : string) :
  String.length (Reference.stream key data) = String.length data.
Proof.
  revert key. induction data as [|c rest IH]; intros key; cbn; [reflexivity|].
  rewrite IH. reflexivity.
Qed.

(** The payload reads back as the claims it was written from. *)
Lemma decode_payload (i issued expires : N) :
  Reference.decode (Reference.payload i issued expires) =
  Some {| Jwt.id := i; Jwt.iat := issued; Jwt.exp := expires |}.
Proof.
  unfold Reference.decode, Reference.payload.
  change (Js.of_N i ++ "-" ++ Js.of_N issued ++ "-" ++ Js.of_N expires)
    with (Js.of_N i ++ String "-" (Js.of_N issued ++ String "-" (Js.of_N expires))).
  rewrite (split_app "-" _ _ (of_N_free "-" i eq_refl)).
  rewrite (split_app "-" _ _ (of_N_free "-" issued eq_refl)).
  rewrite (split_free "-" _ (of_N_free "-" expires eq_refl)).
  rewrite !to_N_of_N. reflexivity.
Qed.

Lemma payload_free (c : ascii) (i issued expires : N) :
  Js.is_digit c = false -> Ascii.eqb "-" c = false ->
  Js.free_of c (Reference.payload i issued expires) = true.
Proof.
  intros Hdigit Hdash. unfold Reference.payload.
  rewrite !free_of_app, !(of_N_free c _ Hdigit). cbn [Js.free_of].
  rewrite Hdash. reflexivity.
Qed.

#[global] Instance reference_jwt_laws : Jwt.Laws Reference.jwt.
Proof.
  split.
  - intros i secret ttl t0 t. cbn [Jwt.verify Jwt.sign Reference.jwt].
    unfold Reference.verify, Reference.sign.
    set (p := Reference.payload i t0 (t0 + ttl)).
    set (sg := Reference.signature secret (Reference.header ++ "." ++ p)).
    change ((Reference.header ++ "." ++ p) ++ "." ++ sg)
      with (Reference.header ++ String "." (p ++ String "." sg)).
    rewrite (split_app "." Reference.header _ eq_refl).
    rewrite (split_app "." p _ (payload_free "." i t0 (t0 + ttl) eq_refl eq_refl)).
    rewrite (split_free "." sg (of_N_free "." _ eq_refl)).
    unfold p at 1. rewrite decode_payload.
    fold sg. rewrite String.eqb_refl. cbn [negb Jwt.exp].
    destruct (N.leb_spec (t0 + ttl) t) as [Hle | Hlt].
    + apply N.ltb_ge in Hle. rewrite Hle. reflexivity.
    + apply N.ltb_lt in Hlt. rewrite Hlt. reflexivity.
  - intros i secret ttl t0. cbn [Jwt.sign Reference.jwt]. unfold Reference.sign.
    split; [discriminate|].
    rewrite !free_of_app.
    rewrite (payload_free " " i t0 (t0 + ttl) eq_refl eq_refl).
    unfold Reference.signature. rewrite (of_N_free " " _ eq_refl). reflexivity.
Qed.

#[global] Instance reference_bcrypt_laws : Bcrypt.Laws Reference.bcrypt.
Proof.
  split.
  - intros data rounds salt. cbn [Bcrypt.compare Bcrypt.hash Reference.bcrypt].
    unfold Reference.compare, Reference.hash.
    set (r := Js.of_N rounds). set (s := Js.of_N (Reference.checksum salt 0)).
    change ("$2b$" ++ r ++ "$" ++ s ++ "$" ++ Reference.digest r s data)
      with ("" ++ String "$" ("2b" ++ String "$" (r ++ String "$"
              (s ++ String "$" (Reference.digest r s data))))).
    rewrite (split_app "$" "" _ eq_refl), (split_app "$" "2b" _ eq_refl).
    rewrite (split_app "$" r _ (of_N_free "$" _ eq_refl)).
    rewrite (split_app "$" s _ (of_N_free "$" _ eq_refl)).
    rewrite (split_free "$" (Reference.digest r s data)
               (digits_free "$" _ eq_refl (stream_digits _ _))).
    rewrite !String.eqb_refl. reflexivity.
  - intros data rounds salt Heq. cbn [Bcrypt.hash Reference.bcrypt] in Heq.
    apply (f_equal String.length) in Heq. unfold Reference.hash in Heq.
    rewrite !length_app in Heq. unfold Reference.digest in Heq.
    rewrite stream_length in Heq. cbn [String.length] in Heq. lia.
Qed.

(* ===================================================================== *)
(** ** The scenario, run *)
(* ===================================================================== *)

(** C1. Reset-confirm with a token that fails verification for a reason
    other than expiry, here a malformed token and a token signed with
    another secret, does stop before the table is read, but the answer
    is 500 "Internal server error." with the error logged, and not the
    400 "Invalid token." the route documents and gives for a subject
    that no longer exists. *)
Theorem C1_reset_with_unverifiable_token_answers_internal_error :
  Jwt.verify Scenario.garbage "s3cret" 1000 = inl (Jwt.JsonWebTokenError "jwt malformed")
  /\ serve (resetPassword Scenario.env (Scenario.reset_with Scenario.garbage)) Scenario.world =
       (InternalError,
        traced Scenario.world [ JwtVerify (Some Scenario.garbage);
                                ConsoleError "Error during password reset:" ])
  /\ Jwt.verify Scenario.forged "s3cret" 1000 =
       inl (Jwt.JsonWebTokenError "invalid signature")
  /\ serve (resetPassword Scenario.env (Scenario.reset_with Scenario.forged)) Scenario.world =
       (InternalError,
        traced Scenario.world [ JwtVerify (Some Scenario.forged);
                                ConsoleError "Error during password reset:" ])
  /\ InternalError <> InvalidToken 400.
Proof.
  assert (Hgarbage : Jwt.verify Scenario.garbage (JWT_SECRET Scenario.env) (now Scenario.env)
                     = inl (Jwt.JsonWebTokenError "jwt malformed")) by reflexivity.
  assert (Hforged : Jwt.verify Scenario.forged (JWT_SECRET Scenario.env) (now Scenario.env)
                    = inl (Jwt.JsonWebTokenError "invalid signature"))
    by (vm_compute; reflexivity).
  split; [exact Hgarbage|]. split.
  - rewrite (resetPassword_verify_failure (joi := Reference.joi) Scenario.env
               (Scenario.reset_with Scenario.garbage) Scenario.world Scenario.garbage _
               eq_refl eq_refl Hgarbage).
    reflexivity.
  - split; [exact Hforged|]. split; [|discriminate].
    rewrite (resetPassword_verify_failure (joi := Reference.joi) Scenario.env
               (Scenario.reset_with Scenario.forged) Scenario.world Scenario.forged _
               eq_refl eq_refl Hforged).
    reflexivity.
Qed.

(** C2, as stated, fails: at one same instant an expired token and a
    token with a bad signature get the same answer from the profile
    route, so expiry is not mapped to a kind of its own. *)
Lemma C2_expiry_is_not_told_apart :
  Jwt.verify Scenario.token "s3cret" 4600 = inl Jwt.TokenExpiredError
  /\ Jwt.verify Scenario.forged "s3cret" 4600 =
       inl (Jwt.JsonWebTokenError "invalid signature")
  /\ ~ (fst (serve (profile Scenario.later (Scenario.get_with ("Bearer " ++ Scenario.token)))
                   Scenario.world)
        <> fst (serve (profile Scenario.later (Scenario.get_with ("Bearer " ++ Scenario.forged)))
                      Scenario.world)).
Proof.
  split; [vm_compute; reflexivity|]. split; [vm_compute; reflexivity|].
  intros Hdistinct. apply Hdistinct. vm_compute. reflexivity.
Qed.

(** The expired token of the scenario, presented to the profile route. *)
Lemma C2_witness :
  get "authorization" (headers (Scenario.get_with ("Bearer " ++ Scenario.token))) =
    Some ("Bearer " ++ Scenario.token)
  /\ nth_error (Js.split " " ("Bearer " ++ Scenario.token)) 1 = Some Scenario.token
  /\ Scenario.token <> ""
  /\ Jwt.verify Scenario.token (JWT_SECRET Scenario.later) (now Scenario.later) =
       inl Jwt.TokenExpiredError
  /\ serve (profile Scenario.later (Scenario.get_with ("Bearer " ++ Scenario.token)))
           Scenario.world =
       (InvalidToken 401, traced Scenario.world [JwtVerify (Some Scenario.token)]).
Proof.
  assert (Hheader : get "authorization"
                      (headers (Scenario.get_with ("Bearer " ++ Scenario.token))) =
                    Some ("Bearer " ++ Scenario.token)) by reflexivity.
  assert (Hword : nth_error (Js.split " " ("Bearer " ++ Scenario.token)) 1 =
                  Some Scenario.token) by (vm_compute; reflexivity).
  assert (Hne : Scenario.token <> "") by (vm_compute; discriminate).
  assert (Hverify : Jwt.verify Scenario.token (JWT_SECRET Scenario.later)
                      (now Scenario.later) = inl Jwt.TokenExpiredError)
    by (vm_compute; reflexivity).
  split; [exact Hheader|]. split; [exact Hword|]. split; [exact Hne|].
  split; [exact Hverify|].
  exact (C2_every_verify_failure_answers_invalid_token Scenario.later _ Scenario.world
           _ _ _ Hheader Hword Hne Hverify).
Defined.

(** The token of the scenario, presented to reset-confirm at the very
    second it expires. *)
Lemma C4_witness :
  Joi.validate newPasswordSchema (body (Scenario.reset_with Scenario.token)) = None
  /\ get "token" (body (Scenario.reset_with Scenario.token)) = Some Scenario.token
  /\ Jwt.verify Scenario.token (JWT_SECRET Scenario.later) (now Scenario.later) =
       inl Jwt.TokenExpiredError
  /\ serve (resetPassword Scenario.later (Scenario.reset_with Scenario.token)) Scenario.world =
       (TokenExpired, traced Scenario.world [JwtVerify (Some Scenario.token)])
  /\ users (snd (serve (resetPassword Scenario.later (Scenario.reset_with Scenario.token))
                       Scenario.world)) = users Scenario.world.
Proof.
  assert (Hvalid : Joi.validate newPasswordSchema
                     (body (Scenario.reset_with Scenario.token)) = None)
    by (vm_compute; reflexivity).
  assert (Htoken : get "token" (body (Scenario.reset_with Scenario.token)) =
                   Some Scenario.token) by reflexivity.
  assert (Hverify : Jwt.verify Scenario.token (JWT_SECRET Scenario.later)
                      (now Scenario.later) = inl Jwt.TokenExpiredError)
    by (vm_compute; reflexivity).
  split; [exact Hvalid|]. split; [exact Htoken|]. split; [exact Hverify|].
  exact (C4_expired_reset_token_changes_nothing Scenario.later _ Scenario.world _
           Hvalid Htoken Hverify).
Defined.

(** The profile of alice, from her token. *)
Lemma C3_witness :
  fst (serve (profile Scenario.env (Scenario.get_with ("Bearer " ++ Scenario.token)))
             Scenario.world) =
    {| status := 200;
       json := JObject
         [ ("message", JString "Welcome to your profile!");
           ("user", JObject [ ("id", JUuid 1);
                              ("username", JString "alice01");
                              ("email", JString "a@x.com") ]) ] |}
  /\ ~ In "password"
       (keys (json (fst (serve (profile Scenario.env
                                  (Scenario.get_with ("Bearer " ++ Scenario.token)))
                               Scenario.world)))).
Proof.
  pose proof (C3_profile_returns_public_projection Scenario.env
                (Scenario.get_with ("Bearer " ++ Scenario.token)) Scenario.world)
    as (Hfound & _ & Hkeys & _).
  split; [|exact Hkeys].
  apply (Hfound ("Bearer " ++ Scenario.token) Scenario.token
           {| Jwt.id := 1; Jwt.iat := 1000; Jwt.exp := 4600 |} Scenario.alice).
  - reflexivity.
  - vm_compute; reflexivity.
  - vm_compute; discriminate.
  - vm_compute; reflexivity.
  - reflexivity.
Defined.

(** The registration of alice in the empty table. *)
Lemma C5_witness :
  Joi.validate registerSchema (body Scenario.register_alice) = None
  /\ User.taken "alice01" "a@x.com" (users Scenario.empty) = false
  /\ exists newUser,
       serve (register Scenario.env Scenario.register_alice) Scenario.empty =
         ({| status := 201;
             json := JObject [ ("message", JString "User registered successfully.");
                               ("userId", JUuid (Model.id newUser)) ] |},
          {| users := users Scenario.empty ++ [newUser];
             outbox := outbox Scenario.empty;
             trace := trace Scenario.empty ++
                      [BcryptHash; DbCreate (Some "alice01") (Some "a@x.com")] |})
       /\ Model.username newUser = "alice01"
       /\ Model.email newUser = "a@x.com"
       /\ Model.password newUser = Bcrypt.hash "Abcdef1!" 10 (salt Scenario.env)
       /\ (forall u, In u (users Scenario.empty) -> Model.id u <> Model.id newUser)
       /\ Bcrypt.compare "Abcdef1!" (Model.password newUser) = true
       /\ Model.password newUser <> "Abcdef1!".
Proof.
  assert (Hvalid : Joi.validate registerSchema (body Scenario.register_alice) = None)
    by (vm_compute; reflexivity).
  assert (Hfree : User.taken "alice01" "a@x.com" (users Scenario.empty) = false)
    by reflexivity.
  split; [exact Hvalid|]. split; [exact Hfree|].
  exact (C5_registration_stores_a_verifying_hash (laws := reference_bcrypt_laws)
           Scenario.env Scenario.register_alice Scenario.empty
           "alice01" "Abcdef1!" "a@x.com" Hvalid eq_refl eq_refl eq_refl Hfree).
Defined.

(** The login of alice. *)
Lemma C6_witness :
  Joi.validate loginSchema (body Scenario.login_alice) = None
  /\ by_username Scenario.world "alice01" = Some Scenario.alice
  /\ Bcrypt.compare "Abcdef1!" (Model.password Scenario.alice) = true
  /\ exists token,
       fst (serve (login Scenario.env Scenario.login_alice) Scenario.world) =
         {| status := 200;
            json := JObject [ ("message", JString "Login successful.");
                              ("token", JString token) ] |}
       /\ (forall t, t < now Scenario.env + 3600 ->
             Jwt.verify token (JWT_SECRET Scenario.env) t =
             inr {| Jwt.id := Model.id Scenario.alice;
                    Jwt.iat := now Scenario.env;
                    Jwt.exp := now Scenario.env + 3600 |})
       /\ (forall t, now Scenario.env + 3600 <= t ->
             Jwt.verify token (JWT_SECRET Scenario.env) t = inl Jwt.TokenExpiredError).
Proof.
  assert (Hvalid : Joi.validate loginSchema (body Scenario.login_alice) = None)
    by (vm_compute; reflexivity).
  assert (Hfound : by_username Scenario.world "alice01" = Some Scenario.alice)
    by reflexivity.
  assert (Hright : Bcrypt.compare "Abcdef1!" (Model.password Scenario.alice) = true)
    by (vm_compute; reflexivity).
  split; [exact Hvalid|]. split; [exact Hfound|]. split; [exact Hright|].
  exact (C6_login_token_lifetime (laws := reference_jwt_laws)
           Scenario.env Scenario.login_alice Scenario.world
           "alice01" "Abcdef1!" Scenario.alice Hvalid eq_refl eq_refl Hfound Hright).
Defined.

(** The wrong password for alice, against the empty table and against
    the table that has her. *)
Lemma C7_witness :
  Joi.validate loginSchema (body Scenario.login_wrong) = None
  /\ by_username Scenario.empty "alice01" = None
  /\ by_username Scenario.world "alice01" = Some Scenario.alice
  /\ Bcrypt.compare "wrong" (Model.password Scenario.alice) = false
  /\ fst (serve (login Scenario.env Scenario.login_wrong) Scenario.empty) =
     fst (serve (login Scenario.later Scenario.login_wrong) Scenario.world)
  /\ fst (serve (login Scenario.env Scenario.login_wrong) Scenario.empty) =
     InvalidCredentials.
Proof.
  assert (Hvalid : Joi.validate loginSchema (body Scenario.login_wrong) = None)
    by (vm_compute; reflexivity).
  assert (Hnone : by_username Scenario.empty "alice01" = None) by reflexivity.
  assert (Hsome : by_username Scenario.world "alice01" = Some Scenario.alice)
    by reflexivity.
  assert (Hwrong : Bcrypt.compare "wrong" (Model.password Scenario.alice) = false)
    by (vm_compute; reflexivity).
  split; [exact Hvalid|]. split; [exact Hnone|]. split; [exact Hsome|].
  split; [exact Hwrong|].
  exact (C7_login_failures_are_identical Scenario.env Scenario.later
           Scenario.login_wrong Scenario.empty Scenario.world
           "alice01" "wrong" Scenario.alice Hvalid eq_refl eq_refl Hnone Hsome Hwrong).
Defined.

(** A reset request for an address nobody has. *)
Lemma C9_witness :
  Joi.validate resetPasswordSchema (body (Scenario.reset_request "b@x.com")) = None
  /\ by_email Scenario.world "b@x.com" = None
  /\ serve (resetPasswordRequest Scenario.env (Scenario.reset_request "b@x.com"))
           Scenario.world =
       (EmailNotFound, traced Scenario.world [DbFindOne "email" (Some "b@x.com")])
  /\ outbox (snd (serve (resetPasswordRequest Scenario.env
                           (Scenario.reset_request "b@x.com")) Scenario.world)) =
     outbox Scenario.world.
Proof.
  assert (Hvalid : Joi.validate resetPasswordSchema
                     (body (Scenario.reset_request "b@x.com")) = None)
    by (vm_compute; reflexivity).
  assert (Hnone : by_email Scenario.world "b@x.com" = None) by reflexivity.
  split; [exact Hvalid|]. split; [exact Hnone|].
  exact (C9_unknown_email_sends_no_mail Scenario.env (Scenario.reset_request "b@x.com")
           Scenario.world "b@x.com" Hvalid eq_refl Hnone).
Defined.

(** No header, a header of one word, and a header whose scheme is not
    Bearer. *)
Lemma C10_witness :
  serve (profile Scenario.env {| headers := []; body := [] |}) Scenario.world =
    (NoTokenProvided, Scenario.world)
  /\ serve (profile Scenario.env (Scenario.get_with "Bearer")) Scenario.world =
       (NoTokenProvided, Scenario.world)
  /\ serve (profile Scenario.env (Scenario.get_with ("Basic " ++ Scenario.token)))
           Scenario.world =
     serve (profileOf ["id"; "username"; "email"] 1)
           (traced Scenario.world [JwtVerify (Some Scenario.token)]).
Proof.
  split; [|split].
  - exact (proj1 (C10_no_token_and_any_scheme Scenario.env
                    {| headers := []; body := [] |} Scenario.world
                    (profileOf ["id"; "username"; "email"])) eq_refl).
  - exact (proj1 (proj2 (C10_no_token_and_any_scheme Scenario.env
                           (Scenario.get_with "Bearer") Scenario.world
                           (profileOf ["id"; "username"; "email"])))
             "Bearer" eq_refl eq_refl).
  - refine (proj1 (proj2 (proj2 (C10_no_token_and_any_scheme Scenario.env
                           (Scenario.get_with ("Basic " ++ Scenario.token)) Scenario.world
                           (profileOf ["id"; "username"; "email"]))))
             "Basic" Scenario.token {| Jwt.id := 1; Jwt.iat := 1000; Jwt.exp := 4600 |}
             eq_refl _ _ eq_refl _).
    + vm_compute; reflexivity.
    + vm_compute; discriminate.
    + vm_compute; reflexivity.
Defined.

(** The token of alice, from login and from the reset mail, used one
    second before it expires on the route it was not issued for. *)
Lemma C8_witness :
  json (fst (serve (login Scenario.env Scenario.login_alice) Scenario.world)) =
    JObject [("message", JString "Login successful."); ("token", JString Scenario.token)]
  /\ map link (outbox (snd (serve (resetPasswordRequest Scenario.env
                                     (Scenario.reset_request "a@x.com")) Scenario.world))) =
       ["http://localhost:3000/reset-password?token=" ++ Scenario.token]
  /\ serve (profile (Scenario.at_time 4599) (Scenario.get_with ("Bearer " ++ Scenario.token)))
           Scenario.world =
     serve (profileOf ["id"; "username"; "email"] 1)
           (traced Scenario.world [JwtVerify (Some Scenario.token)])
  /\ fst (serve (resetPassword (Scenario.at_time 4599) (Scenario.reset_with Scenario.token))
                Scenario.world) =
       {| status := 200; json := message "Password reset successfully." |}
  /\ users (snd (serve (resetPassword (Scenario.at_time 4599)
                          (Scenario.reset_with Scenario.token)) Scenario.world)) =
       [User.set_password (Bcrypt.hash "Zyxwvu9?" 10 "pepper") Scenario.alice].
Proof.
  pose proof (C8_session_and_reset_tokens_are_interchangeable
                (laws := reference_jwt_laws) (bcrypt := Reference.bcrypt)
                (joi := Reference.joi) Scenario.env Scenario.alice) as H.
  cbv zeta in H. destruct H as (Hlogin & Hmail & _ & Hprofile & Hreset).
  split; [|split; [|split]].
  - apply (Hlogin Scenario.login_alice Scenario.world "alice01" "Abcdef1!").
    + vm_compute; reflexivity.
    + reflexivity.
    + reflexivity.
    + reflexivity.
    + vm_compute; reflexivity.
  - apply (Hmail (Scenario.reset_request "a@x.com") Scenario.world "a@x.com").
    + vm_compute; reflexivity.
    + reflexivity.
    + reflexivity.
    + reflexivity.
  - apply (Hprofile (Scenario.at_time 4599)
             (Scenario.get_with ("Bearer " ++ Scenario.token)) Scenario.world).
    + reflexivity.
    + reflexivity.
    + reflexivity.
  - apply (Hreset (Scenario.at_time 4599) (Scenario.reset_with Scenario.token)
             Scenario.world "Zyxwvu9?" Scenario.alice).
    + reflexivity.
    + reflexivity.
    + vm_compute; reflexivity.
    + reflexivity.
    + reflexivity.
    + reflexivity.
Defined.

(* ===================================================================== *)
(** ** Further properties of the handlers *)
(* ===================================================================== *)

Section Everywhere.

Context {jwt : Jwt.Lib} {bcrypt : Bcrypt.Lib} {joi : Joi.Lib}.

(** X1. Every exception is caught inside the handlers: whatever the
    request and the world, each route comes back with a response of its
    own, so the final handler of the framework never answers. *)
Theorem X1_no_exception_leaves_a_handler (env : Env) (req : Request) (w : World) :
  answers (register env req) w
  /\ answers (login env req) w
  /\ answers (resetPasswordRequest env req) w
  /\ answers (resetPassword env req) w
  /\ answers (profile env req) w
  /\ answers (Inline.register env req) w
  /\ answers (Inline.login env req) w
  /\ answers (Inline.resetPasswordRequest env req) w
  /\ answers (Inline.resetPassword env req) w.
Proof.
  unfold answers.
  repeat split; run; run_inline; paths; eauto.
Qed.

(** X2. What each route leaves alone, on every request and in every
    outcome: login, profile and reset-request never change the user
    table; register, login, profile and reset-confirm never send mail. *)
Theorem X2_routes_leave_table_and_outbox_alone (env : Env) (req : Request) (w : World) :
  users (snd (serve (login env req) w)) = users w
  /\ users (snd (serve (profile env req) w)) = users w
  /\ users (snd (serve (resetPasswordRequest env req) w)) = users w
  /\ users (snd (serve (Inline.login env req) w)) = users w
  /\ users (snd (serve (Inline.resetPasswordRequest env req) w)) = users w
  /\ outbox (snd (serve (register env req) w)) = outbox w
  /\ outbox (snd (serve (login env req) w)) = outbox w
  /\ outbox (snd (serve (profile env req) w)) = outbox w
  /\ outbox (snd (serve (resetPassword env req) w)) = outbox w
  /\ outbox (snd (serve (Inline.register env req) w)) = outbox w
  /\ outbox (snd (serve (Inline.login env req) w)) = outbox w
  /\ outbox (snd (serve (Inline.resetPassword env req) w)) = outbox w.
Proof.
  repeat split; run; run_inline; paths; reflexivity.
Qed.

(** X3. The status codes each route can answer: register 201, 400 or
    500; login 200, 400 or 500; reset-request 200, 400, 404 or 500;
    reset-confirm 200, 400 or 500; profile 200, 401, 403, 404 or 500. *)
Theorem X3_status_codes (env : Env) (req : Request) (w : World) :
  In (status (fst (serve (register env req) w))) [201; 400; 500]
  /\ In (status (fst (serve (login env req) w))) [200; 400; 500]
  /\ In (status (fst (serve (resetPasswordRequest env req) w))) [200; 400; 404; 500]
  /\ In (status (fst (serve (resetPassword env req) w))) [200; 400; 500]
  /\ In (status (fst (serve (profile env req) w))) [200; 401; 403; 404; 500].
Proof.
  repeat split; run; paths; cbn; auto 6.
Qed.

End Everywhere.

(** *** Looking rows up *)

Lemma find_app_old {A} (p : A -> bool) (l l' : list A) (y : A) :
  find p l = Some y -> find p (l ++ l') = Some y.
Proof.
  induction l as [|x rest IH]; cbn; [discriminate|].
  destruct (p x); [trivial | exact IH].
Qed.

Lemma find_app_new {A} (p : A -> bool) (l : list A) (x : A) :
  find p l = None -> p x = true -> find p (l ++ [x]) = Some x.
Proof.
  induction l as [|y rest IH]; cbn.
  - intros _ Hx. rewrite Hx. reflexivity.
  - destruct (p y); [discriminate | exact IH].
Qed.

(** A function on rows that keeps what the predicate looks at. *)
Lemma find_map_kept {A} (p : A -> bool) (f : A -> A) (l : list A) :
  (forall x, p (f x) = p x) ->
  find p (map f l) = option_map f (find p l).
Proof.
  intros Hkept. induction l as [|x rest IH]; cbn; [reflexivity|].
  rewrite Hkept. destruct (p x); [reflexivity | exact IH].
Qed.

Lemma find_in_some {A} (p : A -> bool) (l : list A) (x : A) :
  In x l -> p x = true -> exists y, find p l = Some y.
Proof.
  intros Hin Hp. destruct (find p l) as [y|] eqn:Hfind; [exists y; reflexivity|].
  rewrite (find_none p l Hfind x Hin) in Hp. discriminate.
Qed.

(** A username and an email are free exactly when no row is found under
    either. *)
Lemma taken_false (username email : string) (w : World) :
  User.taken username email (users w) = false <->
  by_username w username = None /\ by_email w email = None.
Proof.
  unfold User.taken, by_username, by_email.
  induction (users w) as [|u rest IH]; cbn; [tauto|].
  destruct (String.eqb (Model.username u) username);
    destruct (String.eqb (Model.email u) email); cbn;
    try (split; [discriminate | intros [? ?]; discriminate]).
  exact IH.
Qed.

Lemma fresh_id_unused (us : list Model.User) :
  find (fun u => Model.id u =? User.fresh_id us) us = None.
Proof.
  destruct (find _ us) as [u|] eqn:Hfind; [|reflexivity].
  apply find_some in Hfind. destruct Hfind as [Hin Heq].
  apply N.eqb_eq in Heq. pose proof (fresh_id_above us u Hin). lia.
Qed.

Section Registration.

Context {jwt : Jwt.Lib} {bcrypt : Bcrypt.Lib} {joi : Joi.Lib}.

(** Register, for an accepted body with its three fields. *)
Lemma register_run (env : Env) (req : Request) (w : World)
    (username password email : string) :
  Joi.validate registerSchema (body req) = None ->
  get "username" (body req) = Some username ->
  get "password" (body req) = Some password ->
  get "email" (body req) = Some email ->
  serve (register env req) w =
  if User.taken username email (users w)
  then ({| status := 400; json := message "Username or email already exists." |},
        traced w [BcryptHash; DbCreate (Some username) (Some email)])
  else ({| status := 201;
           json := JObject [ ("message", JString "User registered successfully.");
                             ("userId", JUuid (User.fresh_id (users w))) ] |},
        {| users := users w ++ [registered env w username password email];
           outbox := outbox w;
           trace := trace w ++ [BcryptHash; DbCreate (Some username) (Some email)] |}).
Proof.
  intros Hvalid Husername Hpassword Hemail. run.
  rewrite Hvalid, Husername, Hpassword, Hemail.
  cbn -[User.taken User.fresh_id].
  destruct (User.taken username email (users w)); cbn -[User.fresh_id];
    rewrite <- app_assoc; reflexivity.
Qed.

(** X4. A registration whose username or whose email a row already has
    is answered 400 "Username or email already exists.", the same
    answer for either conflict, and the table is left as it was. *)
Theorem X4_register_conflict (env : Env) (req : Request) (w : World)
    (username password email : string) :
  Joi.validate registerSchema (body req) = None ->
  get "username" (body req) = Some username ->
  get "password" (body req) = Some password ->
  get "email" (body req) = Some email ->
  by_username w username <> None \/ by_email w email <> None ->
  serve (register env req) w =
    ({| status := 400; json := message "Username or email already exists." |},
     traced w [BcryptHash; DbCreate (Some username) (Some email)]).
Proof.
  intros Hvalid Husername Hpassword Hemail Hconflict.
  rewrite (register_run env req w username password email
             Hvalid Husername Hpassword Hemail).
  destruct (User.taken username email (users w)) eqn:Htaken; [reflexivity|].
  apply taken_false in Htaken. destruct Htaken as [Hu He].
  destruct Hconflict as [H | H]; contradiction.
Qed.

(** X5. Of two registrations one after the other that ask for the same
    username or for the same email, the first, if nothing was in its
    way, succeeds, and the second is answered 400 and adds no row. *)
Theorem X5_second_registration_is_rejected (env env' : Env) (req req' : Request)
    (w : World) (username password email username' password' email' : string) :
  Joi.validate registerSchema (body req) = None ->
  get "username" (body req) = Some username ->
  get "password" (body req) = Some password ->
  get "email" (body req) = Some email ->
  User.taken username email (users w) = false ->
  Joi.validate registerSchema (body req') = None ->
  get "username" (body req') = Some username' ->
  get "password" (body req') = Some password' ->
  get "email" (body req') = Some email' ->
  username' = username \/ email' = email ->
  status (fst (serve (register env req) w)) = 201
  /\ fst (serve (register env' req') (snd (serve (register env req) w))) =
       {| status := 400; json := message "Username or email already exists." |}
  /\ users (snd (serve (register env' req') (snd (serve (register env req) w)))) =
       (users w ++ [registered env w username password email])%list.
Proof.
  intros Hvalid Husername Hpassword Hemail Hfree Hvalid' Husername' Hpassword' Hemail' Hsame.
  rewrite (register_run env req w username password email
             Hvalid Husername Hpassword Hemail), Hfree.
  split; [reflexivity|]. cbn [snd].
  rewrite (register_run env' req' _ username' password' email'
             Hvalid' Husername' Hpassword' Hemail').
  cbn [users].
  assert (Htaken : User.taken username' email'
                     (users w ++ [registered env w username password email]) = true).
  { unfold User.taken. rewrite existsb_app. apply orb_true_iff. right. cbn.
    destruct Hsame as [-> | ->]; rewrite String.eqb_refl; cbn;
      rewrite ?orb_true_r; reflexivity. }
  rewrite Htaken. split; reflexivity.
Qed.

End Registration.

Section EndToEnd.

Context {jwt : Jwt.Lib} {bcrypt : Bcrypt.Lib} {joi : Joi.Lib}.
Context {jwt_laws : Jwt.Laws jwt} {bcrypt_laws : Bcrypt.Laws bcrypt}.

(** The profile route, for the token of a row that is there. *)
Lemma profile_of_issued (env env' : Env) (req : Request) (w : World) (u : Model.User) :
  JWT_SECRET env' = JWT_SECRET env ->
  now env' < now env + 3600 ->
  get "authorization" (headers req) = Some ("Bearer " ++ issue env (Model.id u)) ->
  by_id w (Model.id u) = Some u ->
  serve (profile env' req) w =
    ({| status := 200; json := profile_of u |},
     traced w [JwtVerify (Some (issue env (Model.id u))); DbFindByPk (Model.id u)]).
Proof.
  intros Hsecret Hnow Hheader Hfound.
  destruct (Jwt.sign_word (Model.id u) (JWT_SECRET env) Jwt.one_hour (now env))
    as [Hne Hword].
  unfold profile.
  rewrite (verifyToken_word env' req _ w _ (issue env (Model.id u)) Hheader
             (split_header "Bearer" _ eq_refl Hword) Hne).
  rewrite Hsecret, (issue_verifies env (Model.id u) (now env') Hnow).
  cbn [Jwt.id]. rewrite profileOf_run.
  change (by_id (traced w [JwtVerify (Some (issue env (Model.id u)))]) (Model.id u))
    with (by_id w (Model.id u)).
  rewrite Hfound. unfold traced. cbn [users outbox trace].
  rewrite <- app_assoc. reflexivity.
Qed.

(** X6. Register, then log in with the same username and password, then
    ask for the profile with the token within the hour: the login is
    answered 200 with the token of the new id, and the profile is the
    id, username and email that were registered. *)
Theorem X6_register_login_profile (env env' env'' : Env) (reg lg prof : Request)
    (w : World) (username password email : string) :
  Joi.validate registerSchema (body reg) = None ->
  get "username" (body reg) = Some username ->
  get "password" (body reg) = Some password ->
  get "email" (body reg) = Some email ->
  User.taken username email (users w) = false ->
  Joi.validate loginSchema (body lg) = None ->
  get "username" (body lg) = Some username ->
  get "password" (body lg) = Some password ->
  JWT_SECRET env'' = JWT_SECRET env' ->
  now env'' < now env' + 3600 ->
  get "authorization" (headers prof) =
    Some ("Bearer " ++ issue env' (User.fresh_id (users w))) ->
  fst (serve (login env' lg) (snd (serve (register env reg) w))) =
    {| status := 200;
       json := JObject [ ("message", JString "Login successful.");
                         ("token", JString (issue env' (User.fresh_id (users w)))) ] |}
  /\ fst (serve (profile env'' prof)
            (snd (serve (login env' lg) (snd (serve (register env reg) w))))) =
       {| status := 200;
          json := JObject
            [ ("message", JString "Welcome to your profile!");
              ("user", JObject [ ("id", JUuid (User.fresh_id (users w)));
                                 ("username", JString username);
                                 ("email", JString email) ]) ] |}.
Proof.
  intros Hvalid Husername Hpassword Hemail Hfree Hvalid' Husername' Hpassword'
    Hsecret Hnow Hheader.
  rewrite (register_run env reg w username password email
             Hvalid Husername Hpassword Hemail), Hfree.
  cbn [snd]. set (new := registered env w username password email).
  set (w1 := {| users := users w ++ [new]; outbox := outbox w; trace := _ |}).
  apply taken_false in Hfree. destruct Hfree as [Hnobody _].
  assert (Hfound : by_username w1 username = Some new).
  { apply find_app_new; [exact Hnobody | apply String.eqb_refl]. }
  rewrite (login_known_user env' lg w1 username password new
             Hvalid' Husername' Hpassword' Hfound).
  cbn [Model.password new registered]. rewrite Bcrypt.compare_hash.
  split; [reflexivity|]. cbn [snd].
  assert (Hid : by_id (traced w1 [DbFindOne "username" (Some username); BcryptCompare;
                                  JwtSign (Model.id new)]) (Model.id new) = Some new).
  { apply find_app_new; [apply fresh_id_unused | apply N.eqb_refl]. }
  rewrite (profile_of_issued env' env'' prof _ new Hsecret Hnow Hheader Hid).
  reflexivity.
Qed.

End EndToEnd.

Section Reset.

Context {jwt : Jwt.Lib} {bcrypt : Bcrypt.Lib} {joi : Joi.Lib}.

(** Rewriting passwords keeps every other column of every row. *)
Lemma with_password_columns (pk : UserId) (password : string) (us : list Model.User) :
  map Model.id (with_password pk password us) = map Model.id us
  /\ map Model.username (with_password pk password us) = map Model.username us
  /\ map Model.email (with_password pk password us) = map Model.email us.
Proof.
  unfold with_password. rewrite !map_map.
  repeat split; apply map_ext; intros u;
    destruct (Model.id u =? pk); reflexivity.
Qed.

(** X7. Reset-confirm with a token that verifies but whose subject has
    no row is answered 400 "Invalid token."; the table was read once
    and is unchanged, and no hash was computed. *)
Theorem X7_reset_for_a_missing_subject (env : Env) (req : Request) (w : World)
    (token : string) (decoded : Jwt.Claims) :
  Joi.validate newPasswordSchema (body req) = None ->
  get "token" (body req) = Some token ->
  Jwt.verify token (JWT_SECRET env) (now env) = inr decoded ->
  by_id w (Jwt.id decoded) = None ->
  serve (resetPassword env req) w =
    (InvalidToken 400,
     traced w [JwtVerify (Some token); DbFindByPk (Jwt.id decoded)]).
Proof.
  intros Hvalid Htoken Hverify Hnone. run.
  rewrite Hvalid, Htoken, Hverify. cbn. rewrite Hnone. cbn.
  rewrite <- app_assoc. reflexivity.
Qed.

(** What reset-confirm can do to the table. *)
Lemma resetPassword_users (env : Env) (req : Request) (w : World) :
  users (snd (serve (resetPassword env req) w)) = users w
  \/ exists token newPassword decoded,
       get "token" (body req) = Some token
       /\ get "newPassword" (body req) = Some newPassword
       /\ Jwt.verify token (JWT_SECRET env) (now env) = inr decoded
       /\ users (snd (serve (resetPassword env req) w)) =
            with_password (Jwt.id decoded)
              (Bcrypt.hash newPassword 10 (salt env)) (users w).
Proof.
  run.
  destruct (Joi.validate newPasswordSchema (body req)); [left; reflexivity|].
  destruct (get "token" (body req)) as [token|] eqn:Htoken; cbn;
    [|left; reflexivity].
  destruct (Jwt.verify token (JWT_SECRET env) (now env)) as [e | decoded] eqn:Hverify;
    cbn.
  { destruct (String.eqb (Jwt.name e) "TokenExpiredError"); left; reflexivity. }
  destruct (find (fun u => Model.id u =? Jwt.id decoded) (users w)) as [u|] eqn:Hfound;
    cbn; [|left; reflexivity].
  destruct (get "newPassword" (body req)) as [newPassword|] eqn:Hnew; cbn;
    [|left; reflexivity].
  right. exists token, newPassword, decoded.
  apply find_some in Hfound. destruct Hfound as [_ Hid]. apply N.eqb_eq in Hid.
  rewrite <- Hid. repeat split; assumption.
Qed.

(** X8. Whatever the request, reset-confirm changes the table only when
    the token it was given verifies, and then only by writing the hash
    of the new password into the rows whose key is the token's subject;
    ids, usernames and emails are never touched. *)
Theorem X8_reset_writes_only_the_subject_password (env : Env) (req : Request)
    (w : World) :
  (users (snd (serve (resetPassword env req) w)) = users w
   \/ exists token newPassword decoded,
        get "token" (body req) = Some token
        /\ get "newPassword" (body req) = Some newPassword
        /\ Jwt.verify token (JWT_SECRET env) (now env) = inr decoded
        /\ users (snd (serve (resetPassword env req) w)) =
             with_password (Jwt.id decoded)
               (Bcrypt.hash newPassword 10 (salt env)) (users w))
  /\ map Model.id (users (snd (serve (resetPassword env req) w))) =
       map Model.id (users w)
  /\ map Model.username (users (snd (serve (resetPassword env req) w))) =
       map Model.username (users w)
  /\ map Model.email (users (snd (serve (resetPassword env req) w))) =
       map Model.email (users w).
Proof.
  pose proof (resetPassword_users env req w) as Hcases.
  split; [exact Hcases|].
  destruct Hcases as [-> | (token & newPassword & decoded & _ & _ & _ & ->)].
  - repeat split.
  - apply with_password_columns.
Qed.

End Reset.

(** *** Tables without duplicates *)

(** In a list without two elements of the same key, looking a key up
    finds the element that has it. *)
Lemma find_unique {A K} (key : A -> K) (eqb : K -> K -> bool) (l : list A) (x : A) :
  (forall a b, eqb a b = true <-> a = b) ->
  NoDup (map key l) -> In x l ->
  find (fun y => eqb (key y) (key x)) l = Some x.
Proof.
  intros Heqb. induction l as [|y rest IH]; cbn; [contradiction|].
  intros Hnodup Hin. inversion Hnodup as [|? ? Hnotin Hrest]; subst.
  destruct (eqb (key y) (key x)) eqn:Hyx.
  - apply Heqb in Hyx. destruct Hin as [-> | Hin]; [reflexivity|].
    exfalso. apply Hnotin. rewrite Hyx. apply in_map. exact Hin.
  - destruct Hin as [-> | Hin]; [|apply IH; assumption].
    assert (Hrefl : eqb (key x) (key x) = true) by (apply Heqb; reflexivity).
    rewrite Hrefl in Hyx. discriminate.
Qed.

Lemma well_formed_lookups (w : World) (u : Model.User) :
  well_formed w -> In u (users w) ->
  by_id w (Model.id u) = Some u
  /\ by_username w (Model.username u) = Some u
  /\ by_email w (Model.email u) = Some u.
Proof.
  intros (Hid & Husername & Hemail) Hin. repeat split.
  - apply (find_unique Model.id N.eqb _ _ N.eqb_eq Hid Hin).
  - apply (find_unique Model.username String.eqb _ _ String.eqb_eq Husername Hin).
  - apply (find_unique Model.email String.eqb _ _ String.eqb_eq Hemail Hin).
Qed.

(** After the password of a key was rewritten, the row found under a
    username is the row found before, with the new password if it has
    that key. *)
Lemma by_username_with_password (w : World) (pk : UserId) (password username : string)
    (outbox' : list Mail) (trace' : list Event) :
  by_username {| users := with_password pk password (users w);
                 outbox := outbox'; trace := trace' |} username =
  option_map (fun u => if Model.id u =? pk then User.set_password password u else u)
             (by_username w username).
Proof.
  unfold by_username, with_password. cbn [users].
  apply find_map_kept. intros u. destruct (Model.id u =? pk); reflexivity.
Qed.

Lemma by_id_with_password (w : World) (pk pk' : UserId) (password : string)
    (outbox' : list Mail) (trace' : list Event) :
  by_id {| users := with_password pk password (users w);
           outbox := outbox'; trace := trace' |} pk' =
  option_map (fun u => if Model.id u =? pk then User.set_password password u else u)
             (by_id w pk').
Proof.
  unfold by_id, with_password. cbn [users].
  apply find_map_kept. intros u. destruct (Model.id u =? pk); reflexivity.
Qed.

(** The later of two rewritings of the same key is the one that stays. *)
Lemma with_password_twice (pk : UserId) (first second : string) (us : list Model.User) :
  with_password pk second (with_password pk first us) = with_password pk second us.
Proof.
  unfold with_password. rewrite map_map. apply map_ext. intros u.
  destruct (Model.id u =? pk) eqn:Hpk; cbn [User.set_password Model.id];
    rewrite Hpk; reflexivity.
Qed.

Section ResetFlow.

Context {jwt : Jwt.Lib} {bcrypt : Bcrypt.Lib} {joi : Joi.Lib}.
Context {jwt_laws : Jwt.Laws jwt} {bcrypt_laws : Bcrypt.Laws bcrypt}.

(** Reset-confirm with an issued token, within the hour, for a subject
    that has a row. *)
Lemma resetPassword_issued (env env' : Env) (req : Request) (w : World)
    (newPassword : string) (u : Model.User) :
  JWT_SECRET env' = JWT_SECRET env ->
  now env' < now env + 3600 ->
  Joi.validate newPasswordSchema (body req) = None ->
  get "token" (body req) = Some (issue env (Model.id u)) ->
  get "newPassword" (body req) = Some newPassword ->
  by_id w (Model.id u) = Some u ->
  serve (resetPassword env' req) w =
    ({| status := 200; json := message "Password reset successfully." |},
     {| users := with_password (Model.id u)
                   (Bcrypt.hash newPassword 10 (salt env')) (users w);
        outbox := outbox w;
        trace := trace w ++ [JwtVerify (Some (issue env (Model.id u)));
                             DbFindByPk (Model.id u); BcryptHash;
                             DbUpdate (Model.id u)] |}).
Proof.
  intros Hsecret Hnow Hvalid Htoken Hnew Hfound.
  pose proof (issue_verifies env (Model.id u) (now env') Hnow) as Hverify.
  rewrite <- Hsecret in Hverify.
  exact (resetPassword_accepts env' req w _ newPassword _ u
           Hvalid Htoken Hnew Hverify Hfound).
Qed.

(** X9. The reset flow end to end, on a table without duplicates: the
    request mails the user a link with a token; reset-confirm with that
    token and a new password, within the hour, is answered 200; and a
    login with the username and the new password then succeeds. *)
Theorem X9_reset_flow_end_to_end (env env' env'' : Env) (ask confirm lg : Request)
    (w : World) (email newPassword : string) (u : Model.User) :
  well_formed w ->
  Joi.validate resetPasswordSchema (body ask) = None ->
  get "email" (body ask) = Some email ->
  by_email w email = Some u ->
  smtp_up env = true ->
  JWT_SECRET env' = JWT_SECRET env ->
  now env' < now env + 3600 ->
  Joi.validate newPasswordSchema (body confirm) = None ->
  get "token" (body confirm) = Some (issue env (Model.id u)) ->
  get "newPassword" (body confirm) = Some newPassword ->
  Joi.validate loginSchema (body lg) = None ->
  get "username" (body lg) = Some (Model.username u) ->
  get "password" (body lg) = Some newPassword ->
  outbox (snd (serve (resetPasswordRequest env ask) w)) =
    (outbox w ++ [reset_mail env email u])%list
  /\ fst (serve (resetPassword env' confirm)
            (snd (serve (resetPasswordRequest env ask) w))) =
       {| status := 200; json := message "Password reset successfully." |}
  /\ fst (serve (login env'' lg)
            (snd (serve (resetPassword env' confirm)
                    (snd (serve (resetPasswordRequest env ask) w))))) =
       {| status := 200;
          json := JObject [ ("message", JString "Login successful.");
                            ("token", JString (issue env'' (Model.id u))) ] |}.
Proof.
  intros Hwf Hvalid Hemail Hfound Hup Hsecret Hnow Hvalid' Htoken Hnew
    Hvalid'' Husername Hpassword.
  assert (Hin : In u (users w)) by (apply find_some in Hfound; apply Hfound).
  destruct (well_formed_lookups w u Hwf Hin) as (Hid & Hname & _).
  rewrite (resetPasswordRequest_mails env ask w email u Hvalid Hemail Hfound Hup).
  cbn [snd outbox]. split; [reflexivity|].
  match goal with
  | |- context [serve (resetPassword env' confirm) ?w1] =>
      rewrite (resetPassword_issued env env' confirm w1 newPassword u
                 Hsecret Hnow Hvalid' Htoken Hnew Hid)
  end.
  cbn [fst snd users outbox trace]. split; [reflexivity|].
  set (hashed := Bcrypt.hash newPassword 10 (salt env')).
  match goal with
  | |- context [serve (login env'' lg) ?w2] =>
      assert (Hlogin : by_username w2 (Model.username u) =
                       Some (User.set_password hashed u))
  end.
  { rewrite (by_username_with_password w). rewrite Hname. cbn [option_map].
    rewrite N.eqb_refl. reflexivity. }
  rewrite (login_known_user env'' lg _ (Model.username u) newPassword _
             Hvalid'' Husername Hpassword Hlogin).
  cbn [User.set_password Model.password Model.id]. unfold hashed.
  rewrite Bcrypt.compare_hash. reflexivity.
Qed.

(** X10. A reset token is not used up: presented twice within the hour
    it is accepted twice, and the password that stays is the one of the
    second request. *)
Theorem X10_reset_token_can_be_replayed (env env' env'' : Env) (first second : Request)
    (w : World) (password' password'' : string) (u : Model.User) :
  by_id w (Model.id u) = Some u ->
  JWT_SECRET env' = JWT_SECRET env ->
  now env' < now env + 3600 ->
  Joi.validate newPasswordSchema (body first) = None ->
  get "token" (body first) = Some (issue env (Model.id u)) ->
  get "newPassword" (body first) = Some password' ->
  JWT_SECRET env'' = JWT_SECRET env ->
  now env'' < now env + 3600 ->
  Joi.validate newPasswordSchema (body second) = None ->
  get "token" (body second) = Some (issue env (Model.id u)) ->
  get "newPassword" (body second) = Some password'' ->
  fst (serve (resetPassword env' first) w) =
    {| status := 200; json := message "Password reset successfully." |}
  /\ fst (serve (resetPassword env'' second) (snd (serve (resetPassword env' first) w))) =
       {| status := 200; json := message "Password reset successfully." |}
  /\ users (snd (serve (resetPassword env'' second)
                   (snd (serve (resetPassword env' first) w)))) =
       with_password (Model.id u) (Bcrypt.hash password'' 10 (salt env'')) (users w).
Proof.
  intros Hfound Hsecret Hnow Hvalid Htoken Hnew Hsecret' Hnow' Hvalid' Htoken' Hnew'.
  rewrite (resetPassword_issued env env' first w password' u
             Hsecret Hnow Hvalid Htoken Hnew Hfound).
  cbn [fst snd]. split; [reflexivity|].
  set (hashed := Bcrypt.hash password' 10 (salt env')).
  match goal with
  | |- context [serve (resetPassword env'' second) ?w1] =>
      assert (Hagain : by_id w1 (Model.id (User.set_password hashed u)) =
                       Some (User.set_password hashed u))
  end.
  { cbn [User.set_password Model.id]. rewrite (by_id_with_password w).
    rewrite Hfound. cbn [option_map]. rewrite N.eqb_refl. reflexivity. }
  rewrite (resetPassword_issued env env'' second _ password''
             (User.set_password hashed u) Hsecret' Hnow' Hvalid' Htoken' Hnew' Hagain).
  cbn [fst snd users User.set_password Model.id].
  split; [reflexivity|]. apply with_password_twice.
Qed.

End ResetFlow.

Section Soundness.

Context {jwt : Jwt.Lib} {bcrypt : Bcrypt.Lib} {joi : Joi.Lib}.

(** X11. When the transport refuses the message, the reset request is
    answered 500 "Internal server error." and the error is logged; the
    token was signed, but no mail is in the outbox and the table is
    unchanged. *)
Theorem X11_reset_request_when_mail_fails (env : Env) (req : Request) (w : World)
    (email : string) (u : Model.User) :
  Joi.validate resetPasswordSchema (body req) = None ->
  get "email" (body req) = Some email ->
  by_email w email = Some u ->
  smtp_up env = false ->
  serve (resetPasswordRequest env req) w =
    (InternalError,
     traced w [ DbFindOne "email" (Some email); JwtSign (Model.id u);
                MailSend (Some email);
                ConsoleError "Error during password reset request:" ]).
Proof.
  intros Hvalid Hemail Hfound Hdown. run.
  rewrite Hvalid, Hemail. cbn. rewrite Hfound. cbn. rewrite Hdown. cbn.
  repeat rewrite <- app_assoc. reflexivity.
Qed.

(** X12. Whatever the request, a reset request puts at most one mail in
    the outbox, and only for an address that a row carries: the mail
    goes to that address, names that row's user and links to a token
    for that row's id. *)
Theorem X12_reset_mail_only_for_a_known_address (env : Env) (req : Request) (w : World) :
  outbox (snd (serve (resetPasswordRequest env req) w)) = outbox w
  \/ exists email u,
       get "email" (body req) = Some email
       /\ by_email w email = Some u
       /\ outbox (snd (serve (resetPasswordRequest env req) w)) =
            (outbox w ++ [reset_mail env email u])%list.
Proof.
  run.
  destruct (Joi.validate resetPasswordSchema (body req)); [left; reflexivity|].
  destruct (get "email" (body req)) as [email|] eqn:Hemail; cbn; [|left; reflexivity].
  destruct (find (fun u => String.eqb (Model.email u) email) (users w)) as [u|] eqn:Hfound;
    cbn; [|left; reflexivity].
  destruct (smtp_up env); cbn; [|left; reflexivity].
  right. exists email, u. repeat split; assumption.
Qed.

(** X13. Login answers 200 only when a row has the username and the
    password verifies against the hash of that row; the token is then
    the one issued for that row's id. *)
Theorem X13_login_succeeds_only_with_the_password (env : Env) (req : Request) (w : World) :
  status (fst (serve (login env req) w)) = 200 ->
  exists username password u,
    get "username" (body req) = Some username
    /\ get "password" (body req) = Some password
    /\ by_username w username = Some u
    /\ Bcrypt.compare password (Model.password u) = true
    /\ json (fst (serve (login env req) w)) =
         JObject [ ("message", JString "Login successful.");
                   ("token", JString (issue env (Model.id u))) ].
Proof.
  run.
  destruct (Joi.validate loginSchema (body req)); [discriminate|].
  destruct (get "username" (body req)) as [username|] eqn:Husername; cbn;
    [|discriminate].
  destruct (find (fun u => String.eqb (Model.username u) username) (users w))
    as [u|] eqn:Hfound; cbn; [|discriminate].
  destruct (get "password" (body req)) as [password|] eqn:Hpassword; cbn;
    [|discriminate].
  destruct (Bcrypt.compare password (Model.password u)) eqn:Hright; cbn;
    [|discriminate].
  intros _. exists username, password, u. repeat split; assumption.
Qed.

End Soundness.

Section ProfileRoute.

Context {jwt : Jwt.Lib}.

(** X14. A token that verifies but whose subject has no row (the user
    was deleted after the token was issued) gets 404 "User not found."
    from the profile route. *)
Theorem X14_profile_of_a_missing_subject (env : Env) (req : Request) (w : World)
    (header token : string) (decoded : Jwt.Claims) :
  get "authorization" (headers req) = Some header ->
  nth_error (Js.split " " header) 1 = Some token ->
  token <> "" ->
  Jwt.verify token (JWT_SECRET env) (now env) = inr decoded ->
  by_id w (Jwt.id decoded) = None ->
  serve (profile env req) w =
    ({| status := 404; json := message "User not found." |},
     traced w [JwtVerify (Some token); DbFindByPk (Jwt.id decoded)]).
Proof.
  intros Hheader Hword Hne Hverify Hnone. unfold profile.
  rewrite (verifyToken_word env req _ w header token Hheader Hword Hne), Hverify.
  rewrite profileOf_run.
  change (by_id (traced w [JwtVerify (Some token)]) (Jwt.id decoded))
    with (by_id w (Jwt.id decoded)).
  rewrite Hnone. unfold traced. cbn [users outbox trace].
  rewrite <- app_assoc. reflexivity.
Qed.

(** X15. The profile route answers 200 only when the second word of the
    Authorization header is a token that verifies under the secret at
    that instant; the answer is then the profile of the row whose key
    is the token's subject. *)
Theorem X15_profile_only_for_a_verified_token (env : Env) (req : Request) (w : World) :
  status (fst (serve (profile env req) w)) = 200 ->
  exists header token decoded u,
    get "authorization" (headers req) = Some header
    /\ nth_error (Js.split " " header) 1 = Some token
    /\ Jwt.verify token (JWT_SECRET env) (now env) = inr decoded
    /\ by_id w (Jwt.id decoded) = Some u
    /\ json (fst (serve (profile env req) w)) = profile_of u.
Proof.
  unfold profile, verifyToken.
  destruct (get "authorization" (headers req)) as [header|] eqn:Hheader;
    [|discriminate].
  destruct (Js.falsy (Some header)); [discriminate|]. cbn [Js.text].
  destruct (nth_error (Js.split " " header) 1) as [token|] eqn:Hword;
    [|discriminate].
  destruct (Js.falsy (Some token)); [discriminate|]. cbn [Js.text].
  unfold jwt_verify_callback.
  destruct (Jwt.verify token (JWT_SECRET env) (now env)) as [e | decoded] eqn:Hverify.
  - unfold serve, bind, emit. cbn. discriminate.
  - change (serve (emit (JwtVerify (Some token)) ;;
                   profileOf ["id"; "username"; "email"] (Jwt.id decoded)) w)
      with (serve (profileOf ["id"; "username"; "email"] (Jwt.id decoded))
              (traced w [JwtVerify (Some token)])).
    rewrite profileOf_run.
    change (by_id (traced w [JwtVerify (Some token)]) (Jwt.id decoded))
      with (by_id w (Jwt.id decoded)).
    destruct (by_id w (Jwt.id decoded)) as [u|] eqn:Hfound; [|discriminate].
    intros _. exists header, token, decoded, u. repeat split; assumption.
Qed.

(** The middleware looks only at the second of the words a space
    separates. *)
Lemma split_second (scheme rest : string) :
  Js.free_of " " scheme = true ->
  nth_error (Js.split " " (scheme ++ " " ++ rest)) 1 = hd_error (Js.split " " rest).
Proof.
  intros Hscheme. change (scheme ++ " " ++ rest) with (scheme ++ String " " rest).
  rewrite (split_app _ _ _ Hscheme). cbn [nth_error].
  destruct (Js.split " " rest); reflexivity.
Qed.

(** X16. The token is the second of the words of the header that single
    spaces separate.  So a header that ends after the space, or that has
    two spaces after the scheme, is answered 403 "No token provided."
    whatever follows, with nothing verified; and whatever follows a
    space after the token is ignored. *)
Theorem X16_only_the_second_word_counts (env : Env) (req : Request) (w : World)
    (next : UserId -> M Response) (scheme : string) :
  Js.free_of " " scheme = true ->
  (get "authorization" (headers req) = Some (scheme ++ " ") ->
   serve (verifyToken env req next) w = (NoTokenProvided, w))
  /\ (forall rest,
        get "authorization" (headers req) = Some (scheme ++ "  " ++ rest) ->
        serve (verifyToken env req next) w = (NoTokenProvided, w))
  /\ (forall token rest,
        Js.free_of " " token = true ->
        token <> "" ->
        get "authorization" (headers req) = Some (scheme ++ " " ++ token ++ " " ++ rest) ->
        serve (verifyToken env req next) w =
        match Jwt.verify token (JWT_SECRET env) (now env) with
        | inl _ => (InvalidToken 401, traced w [JwtVerify (Some token)])
        | inr decoded => serve (next (Jwt.id decoded)) (traced w [JwtVerify (Some token)])
        end).
Proof.
  intros Hscheme. split; [|split].
  - intros Hheader. apply verifyToken_no_word. rewrite Hheader. cbn [Js.text].
    change (scheme ++ " ") with (scheme ++ " " ++ "").
    rewrite (split_second _ _ Hscheme). reflexivity.
  - intros rest Hheader. apply verifyToken_no_word. rewrite Hheader. cbn [Js.text].
    change (scheme ++ "  " ++ rest) with (scheme ++ " " ++ ("" ++ String " " rest)).
    rewrite (split_second _ _ Hscheme), (split_app " " "" rest eq_refl). reflexivity.
  - intros token rest Htoken Hne Hheader.
    apply (verifyToken_word env req next w _ token Hheader); [|exact Hne].
    rewrite (split_second _ _ Hscheme).
    change (token ++ " " ++ rest) with (token ++ String " " rest).
    rewrite (split_app _ _ _ Htoken). reflexivity.
Qed.

End ProfileRoute.

(** *** The table stays without duplicates *)

Lemma taken_false_fresh (username email : string) (us : list Model.User) :
  User.taken username email us = false ->
  ~ In username (map Model.username us) /\ ~ In email (map Model.email us).
Proof.
  unfold User.taken. induction us as [|u rest IH]; cbn; [tauto|].
  intros H. apply orb_false_iff in H. destruct H as [Hu Hrest].
  apply orb_false_iff in Hu. destruct Hu as [Hname Hmail].
  apply String.eqb_neq in Hname. apply String.eqb_neq in Hmail.
  destruct (IH Hrest) as [IHname IHmail]. split; intros [Heq | Hin]; tauto.
Qed.

Lemma fresh_id_fresh (us : list Model.User) :
  ~ In (User.fresh_id us) (map Model.id us).
Proof.
  intros Hin. apply in_map_iff in Hin. destruct Hin as (u & Heq & Hin).
  pose proof (fresh_id_above us u Hin). lia.
Qed.

Lemma NoDup_snoc {A} (l : list A) (x : A) :
  NoDup l -> ~ In x l -> NoDup (l ++ [x]).
Proof.
  intros Hl Hx. apply NoDup_app; [exact Hl | repeat constructor; intros [] | ].
  intros y Hy [<- | []]. contradiction.
Qed.

(** A table that is the old one, or the old one with a row for a free
    username and email under a new key, or the old one with passwords
    rewritten, has no duplicates if the old one had none. *)
Lemma well_formed_kept {bcrypt : Bcrypt.Lib} (env : Env) (w w' : World) :
  well_formed w ->
  users w' = users w
  \/ (exists username password email,
        User.taken username email (users w) = false
        /\ users w' = users w ++ [registered env w username password email])%list
  \/ (exists pk password, users w' = with_password pk password (users w)) ->
  well_formed w'.
Proof.
  unfold well_formed. intros (Hid & Hname & Hmail) [Heq | [Hnew | Hset]].
  - rewrite Heq. repeat split; assumption.
  - destruct Hnew as (username & password & email & Hfree & ->).
    apply taken_false_fresh in Hfree. destruct Hfree as [Hfreename Hfreemail].
    rewrite !map_app. cbn [map registered Model.id Model.username Model.email].
    repeat split; apply NoDup_snoc; try assumption. apply fresh_id_fresh.
  - destruct Hset as (pk & password & ->).
    destruct (with_password_columns pk password (users w)) as (-> & -> & ->).
    repeat split; assumption.
Qed.

Section Invariant.

Context {jwt : Jwt.Lib} {bcrypt : Bcrypt.Lib} {joi : Joi.Lib}.

(** What register can do to the table. *)
Lemma register_users (env : Env) (req : Request) (w : World) :
  users (snd (serve (register env req) w)) = users w
  \/ (exists username password email,
        User.taken username email (users w) = false
        /\ users (snd (serve (register env req) w)) =
             users w ++ [registered env w username password email])%list.
Proof.
  run. paths; cbn -[User.fresh_id];
    first [ left; reflexivity
          | right; do 3 eexists; split; [eassumption | reflexivity] ].
Qed.

Lemma inline_register_users (env : Env) (req : Request) (w : World) :
  users (snd (serve (Inline.register env req) w)) = users w
  \/ (exists username password email,
        User.taken username email (users w) = false
        /\ users (snd (serve (Inline.register env req) w)) =
             users w ++ [registered env w username password email])%list.
Proof.
  run_inline. paths; cbn -[User.fresh_id];
    first [ left; reflexivity
          | right; do 3 eexists; split; [eassumption | reflexivity] ].
Qed.

Lemma inline_resetPassword_users (env : Env) (req : Request) (w : World) :
  users (snd (serve (Inline.resetPassword env req) w)) = users w
  \/ exists pk password,
       users (snd (serve (Inline.resetPassword env req) w)) =
         with_password pk password (users w).
Proof.
  run_inline. paths; cbn;
    first [ left; reflexivity | right; do 2 eexists; reflexivity ].
Qed.

(** X17. No route ever brings a duplicate into the table: if no two
    rows share a key, a username or an email before a request, none do
    after it, whatever the request and whichever of the routes, of
    either router, serves it. *)
Theorem X17_no_route_creates_a_duplicate (env : Env) (req : Request) (w : World) :
  well_formed w ->
  well_formed (snd (serve (register env req) w))
  /\ well_formed (snd (serve (login env req) w))
  /\ well_formed (snd (serve (resetPasswordRequest env req) w))
  /\ well_formed (snd (serve (resetPassword env req) w))
  /\ well_formed (snd (serve (profile env req) w))
  /\ well_formed (snd (serve (Inline.register env req) w))
  /\ well_formed (snd (serve (Inline.login env req) w))
  /\ well_formed (snd (serve (Inline.resetPasswordRequest env req) w))
  /\ well_formed (snd (serve (Inline.resetPassword env req) w)).
Proof.
  intros Hwf.
  assert (Hread : forall w', users w' = users w -> well_formed w').
  { intros w' Heq. apply (well_formed_kept env w w' Hwf). left. exact Heq. }
  repeat match goal with |- _ /\ _ => split end.
  - apply (well_formed_kept env w _ Hwf).
    destruct (register_users env req w) as [H | H]; [left | right; left]; exact H.
  - apply Hread. run. paths; reflexivity.
  - apply Hread. run. paths; reflexivity.
  - apply (well_formed_kept env w _ Hwf).
    destruct (resetPassword_users env req w)
      as [H | (token & newPassword & decoded & _ & _ & _ & H)];
      [left; exact H | right; right; eauto].
  - apply Hread. run. paths; reflexivity.
  - apply (well_formed_kept env w _ Hwf).
    destruct (inline_register_users env req w) as [H | H]; [left | right; left]; exact H.
  - apply Hread. run_inline. paths; reflexivity.
  - apply Hread. run_inline. paths; reflexivity.
  - apply (well_formed_kept env w _ Hwf).
    destruct (inline_resetPassword_users env req w) as [H | H];
      [left; exact H | right; right; exact H].
Qed.

End Invariant.

(* ===================================================================== *)
(** ** The router with the inline checks *)
(* ===================================================================== *)

(** *** The email expression *)

Lemma plain_plus_spec (s : string) :
  plain_plus s = true <-> s <> "" /\ Js.forallb regex_plain s = true.
Proof.
  induction s as [|c rest IH]; cbn [plain_plus Js.forallb].
  - split; [discriminate | intros [H _]; contradiction H; reflexivity].
  - destruct rest as [|d more].
    + cbn. rewrite andb_true_r. split; [intros H; split; [discriminate | exact H] | tauto].
    + rewrite andb_true_iff, IH. split.
      * intros (Hc & _ & Hrest). split; [discriminate|].
        apply andb_true_iff. split; assumption.
      * intros (_ & H). apply andb_true_iff in H. destruct H as [Hc Hrest].
        repeat split; [exact Hc | discriminate | exact Hrest].
Qed.

(** The matcher for "plain characters, the separator, the rest" accepts
    exactly the strings that split that way. *)
Lemma plus_then_spec (sep : ascii) (k : string -> bool) (s : string) :
  plus_then sep k s = true <->
  exists a t, s = a ++ String sep t /\ plain_plus a = true /\ k t = true.
Proof.
  split.
  - induction s as [|c rest IH]; cbn [plus_then]; [discriminate|].
    intros H. apply andb_true_iff in H. destruct H as [Hc H].
    apply orb_true_iff in H. destruct H as [H | H].
    + destruct rest as [|d after]; [discriminate|].
      apply andb_true_iff in H. destruct H as [Hd Hk].
      apply Ascii.eqb_eq in Hd. subst d.
      exists (String c ""), after. cbn. repeat split; assumption.
    + destruct (IH H) as (a & t & -> & Ha & Hk).
      exists (String c a), t. repeat split; [|exact Hk].
      cbn [plain_plus]. destruct a as [|d more]; [discriminate Ha|].
      rewrite Hc. exact Ha.
  - intros (a & t & -> & Ha & Hk). induction a as [|c rest IH]; [discriminate Ha|].
    cbn [append plus_then]. destruct rest as [|d more].
    + cbn [plain_plus] in Ha. rewrite Ha. cbn [append].
      rewrite Ascii.eqb_refl, Hk. reflexivity.
    + cbn [plain_plus] in Ha. apply andb_true_iff in Ha. destruct Ha as [Hc Hrest].
      rewrite Hc, (IH Hrest), orb_true_r. reflexivity.
Qed.

(** X18. The email expression of the inline register route accepts
    exactly the strings made of a local part, an at sign, a domain, a
    dot and a last part, where the three parts are not empty and hold
    no white space and no at sign (the domain and the last part may hold
    further dots). *)
Theorem X18_email_expression_language (s : string) :
  emailRegex_test s = true <-> email_language s.
Proof.
  unfold emailRegex_test, email_language. rewrite plus_then_spec. split.
  - intros (a & t & -> & Ha & Ht).
    apply plus_then_spec in Ht. destruct Ht as (b & c & -> & Hb & Hc).
    apply plain_plus_spec in Ha, Hb, Hc.
    exists a, b, c. intuition.
  - intros (a & b & c & -> & Hane & Hbne & Hcne & Ha & Hb & Hc).
    exists a, (b ++ String "." c). split; [reflexivity|].
    split; [apply plain_plus_spec; split; assumption|].
    apply plus_then_spec. exists b, c.
    repeat split; apply plain_plus_spec; split; assumption.
Qed.

Section InlineRoutes.

Context {jwt : Jwt.Lib} {bcrypt : Bcrypt.Lib} {joi : Joi.Lib}.

(** X19. The inline checks: a request in which a needed field is
    missing or empty is answered 400 with the message of its route, and
    a registration whose email the expression rejects with 400 "Invalid
    email format."; in each case nothing else has happened. *)
Theorem X19_inline_checks_answer_first (env : Env) (req : Request) (w : World) :
  (Js.falsy (get "username" (body req)) = true
   \/ Js.falsy (get "password" (body req)) = true
   \/ Js.falsy (get "email" (body req)) = true ->
   serve (Inline.register env req) w =
     ({| status := 400;
         json := message "Username, password, and email are required." |}, w))
  /\ (Js.falsy (get "username" (body req)) = false ->
      Js.falsy (get "password" (body req)) = false ->
      Js.falsy (get "email" (body req)) = false ->
      emailRegex_test (Js.text (get "email" (body req))) = false ->
      serve (Inline.register env req) w =
        ({| status := 400; json := message "Invalid email format." |}, w))
  /\ (Js.falsy (get "username" (body req)) = true
      \/ Js.falsy (get "password" (body req)) = true ->
      serve (Inline.login env req) w =
        ({| status := 400; json := message "Username and password are required." |}, w))
  /\ (Js.falsy (get "email" (body req)) = true ->
      serve (Inline.resetPasswordRequest env req) w =
        ({| status := 400; json := message "Email address is required." |}, w))
  /\ (Js.falsy (get "token" (body req)) = true
      \/ Js.falsy (get "newPassword" (body req)) = true ->
      serve (Inline.resetPassword env req) w =
        ({| status := 400;
            json := message "Token and new password are required." |}, w)).
Proof.
  repeat match goal with |- _ /\ _ => split end.
  - intros H. unfold Inline.register.
    assert (Hany : Js.falsy (get "username" (body req))
                   || Js.falsy (get "password" (body req))
                   || Js.falsy (get "email" (body req)) = true).
    { destruct H as [-> | [-> | ->]]; rewrite ?orb_true_r; reflexivity. }
    cbv zeta. rewrite Hany. reflexivity.
  - intros Hu Hp He Hbad. unfold Inline.register. cbv zeta.
    rewrite Hu, Hp, He, Hbad. reflexivity.
  - intros H. unfold Inline.login.
    assert (Hany : Js.falsy (get "username" (body req))
                   || Js.falsy (get "password" (body req)) = true).
    { destruct H as [-> | ->]; rewrite ?orb_true_r; reflexivity. }
    cbv zeta. rewrite Hany. reflexivity.
  - intros H. unfold Inline.resetPasswordRequest. cbv zeta. rewrite H. reflexivity.
  - intros H. unfold Inline.resetPassword.
    assert (Hany : Js.falsy (get "token" (body req))
                   || Js.falsy (get "newPassword" (body req)) = true).
    { destruct H as [-> | ->]; rewrite ?orb_true_r; reflexivity. }
    cbv zeta. rewrite Hany. reflexivity.
Qed.

(** X20. The schemas changed which requests are let in, not what is
    done with them: a request that the schema of the current route
    accepts and that passes the inline checks of the earlier route gets
    the same answer from both and leaves the same world. *)
Theorem X20_both_routers_agree_on_accepted_requests (env : Env) (req : Request)
    (w : World) :
  (Joi.validate registerSchema (body req) = None ->
   Js.falsy (get "username" (body req)) = false ->
   Js.falsy (get "password" (body req)) = false ->
   Js.falsy (get "email" (body req)) = false ->
   emailRegex_test (Js.text (get "email" (body req))) = true ->
   serve (Inline.register env req) w = serve (register env req) w)
  /\ (Joi.validate loginSchema (body req) = None ->
      Js.falsy (get "username" (body req)) = false ->
      Js.falsy (get "password" (body req)) = false ->
      serve (Inline.login env req) w = serve (login env req) w)
  /\ (Joi.validate resetPasswordSchema (body req) = None ->
      Js.falsy (get "email" (body req)) = false ->
      serve (Inline.resetPasswordRequest env req) w =
      serve (resetPasswordRequest env req) w)
  /\ (Joi.validate newPasswordSchema (body req) = None ->
      Js.falsy (get "token" (body req)) = false ->
      Js.falsy (get "newPassword" (body req)) = false ->
      serve (Inline.resetPassword env req) w = serve (resetPassword env req) w).
Proof.
  repeat match goal with |- _ /\ _ => split end.
  - intros Hvalid Hu Hp He Hok. unfold Inline.register, register. cbv zeta.
    rewrite Hvalid, Hu, Hp, He, Hok. reflexivity.
  - intros Hvalid Hu Hp. unfold Inline.login, login. cbv zeta.
    rewrite Hvalid, Hu, Hp. reflexivity.
  - intros Hvalid He. unfold Inline.resetPasswordRequest, resetPasswordRequest.
    cbv zeta. rewrite Hvalid, He. reflexivity.
  - intros Hvalid Ht Hn. unfold Inline.resetPassword, resetPassword. cbv zeta.
    rewrite Hvalid, Ht, Hn. reflexivity.
Qed.

End InlineRoutes.

Section Leaks.

Context {jwt : Jwt.Lib} {bcrypt : Bcrypt.Lib} {joi : Joi.Lib}.

(** X21. The reset request tells whether an address is known: for an
    accepted address the answer is 404 exactly when no row carries it
    (and 200 or 500 when one does). *)
Theorem X21_reset_request_tells_known_addresses (env : Env) (req : Request) (w : World)
    (email : string) :
  Joi.validate resetPasswordSchema (body req) = None ->
  get "email" (body req) = Some email ->
  (status (fst (serve (resetPasswordRequest env req) w)) = 404 <->
   by_email w email = None).
Proof.
  intros Hvalid Hemail. run. rewrite Hvalid, Hemail. cbn.
  destruct (find (fun u => String.eqb (Model.email u) email) (users w)) as [u|]; cbn.
  - destruct (smtp_up env); cbn; split; discriminate.
  - split; reflexivity.
Qed.

(** X22. After an accepted reset, every row of the subject holds the
    hash of the new password, which verifies against it and is not the
    password itself; every other row of the table is a row that was
    there before, and the table has as many rows as before. *)
Theorem X22_reset_stores_a_hash_and_spares_the_others {bcrypt_laws : Bcrypt.Laws bcrypt}
    (env : Env) (req : Request) (w : World) (token newPassword : string)
    (decoded : Jwt.Claims) (u : Model.User) :
  Joi.validate newPasswordSchema (body req) = None ->
  get "token" (body req) = Some token ->
  get "newPassword" (body req) = Some newPassword ->
  Jwt.verify token (JWT_SECRET env) (now env) = inr decoded ->
  by_id w (Jwt.id decoded) = Some u ->
  List.length (users (snd (serve (resetPassword env req) w))) = List.length (users w)
  /\ (forall v, In v (users (snd (serve (resetPassword env req) w))) ->
        Model.id v = Model.id u ->
        Model.password v = Bcrypt.hash newPassword 10 (salt env)
        /\ Bcrypt.compare newPassword (Model.password v) = true
        /\ Model.password v <> newPassword)
  /\ (forall v, In v (users (snd (serve (resetPassword env req) w))) ->
        Model.id v <> Model.id u ->
        In v (users w)).
Proof.
  intros Hvalid Htoken Hnew Hverify Hfound.
  rewrite (resetPassword_accepts env req w token newPassword decoded u
             Hvalid Htoken Hnew Hverify Hfound).
  cbn [snd users]. unfold with_password. split; [apply length_map|].
  split; intros v Hin Hid; apply in_map_iff in Hin; destruct Hin as (x & <- & Hx).
  - destruct (Model.id x =? Model.id u) eqn:Hpk.
    + cbn [User.set_password Model.password].
      repeat split; [apply Bcrypt.compare_hash | apply Bcrypt.hash_opaque].
    + apply N.eqb_neq in Hpk. contradiction.
  - destruct (Model.id x =? Model.id u) eqn:Hpk; [|exact Hx].
    apply N.eqb_eq in Hpk. cbn [User.set_password Model.id] in Hid. contradiction.
Qed.

End Leaks.

(* ===================================================================== *)
(** ** The further properties, on the scenario *)
(* ===================================================================== *)

(** Alice registers again. *)
Lemma X4_witness :
  Joi.validate registerSchema (body Scenario.register_alice) = None
  /\ (by_username Scenario.world "alice01" <> None
      \/ by_email Scenario.world "a@x.com" <> None)
  /\ serve (register Scenario.env Scenario.register_alice) Scenario.world =
       ({| status := 400; json := message "Username or email already exists." |},
        traced Scenario.world [BcryptHash; DbCreate (Some "alice01") (Some "a@x.com")]).
Proof.
  assert (Hvalid : Joi.validate registerSchema (body Scenario.register_alice) = None)
    by (vm_compute; reflexivity).
  assert (Hconflict : by_username Scenario.world "alice01" <> None
                      \/ by_email Scenario.world "a@x.com" <> None)
    by (left; vm_compute; discriminate).
  split; [exact Hvalid|]. split; [exact Hconflict|].
  exact (X4_register_conflict Scenario.env Scenario.register_alice Scenario.world
           "alice01" "Abcdef1!" "a@x.com" Hvalid eq_refl eq_refl eq_refl Hconflict).
Defined.

(** Alice registers in the empty table, then somebody asks for her
    email under another username. *)
Lemma X5_witness :
  Joi.validate registerSchema (body Scenario.register_alice) = None
  /\ User.taken "alice01" "a@x.com" (users Scenario.empty) = false
  /\ Joi.validate registerSchema (body Cases.register_bob) = None
  /\ status (fst (serve (register Scenario.env Scenario.register_alice) Scenario.empty)) = 201
  /\ fst (serve (register Scenario.later Cases.register_bob)
            (snd (serve (register Scenario.env Scenario.register_alice) Scenario.empty))) =
       {| status := 400; json := message "Username or email already exists." |}
  /\ users (snd (serve (register Scenario.later Cases.register_bob)
                   (snd (serve (register Scenario.env Scenario.register_alice)
                           Scenario.empty)))) =
       (users Scenario.empty ++
        [registered Scenario.env Scenario.empty "alice01" "Abcdef1!" "a@x.com"])%list.
Proof.
  assert (Hvalid : Joi.validate registerSchema (body Scenario.register_alice) = None)
    by (vm_compute; reflexivity).
  assert (Hfree : User.taken "alice01" "a@x.com" (users Scenario.empty) = false)
    by reflexivity.
  assert (Hvalid' : Joi.validate registerSchema (body Cases.register_bob) = None)
    by (vm_compute; reflexivity).
  split; [exact Hvalid|]. split; [exact Hfree|]. split; [exact Hvalid'|].
  exact (X5_second_registration_is_rejected Scenario.env Scenario.later
           Scenario.register_alice Cases.register_bob Scenario.empty
           "alice01" "Abcdef1!" "a@x.com" "bobby02" "Abcdef1!" "a@x.com"
           Hvalid eq_refl eq_refl eq_refl Hfree Hvalid' eq_refl eq_refl eq_refl
           (or_intror eq_refl)).
Defined.

(** The end-to-end run: register, login, profile. *)
Lemma X6_witness :
  Joi.validate registerSchema (body Scenario.register_alice) = None
  /\ User.taken "alice01" "a@x.com" (users Scenario.empty) = false
  /\ Joi.validate loginSchema (body Scenario.login_alice) = None
  /\ fst (serve (login Scenario.env Scenario.login_alice)
            (snd (serve (register Scenario.env Scenario.register_alice) Scenario.empty))) =
       {| status := 200;
          json := JObject [ ("message", JString "Login successful.");
                            ("token", JString (issue Scenario.env 1)) ] |}
  /\ fst (serve (profile (Scenario.at_time 2000)
                   (Scenario.get_with ("Bearer " ++ Scenario.token)))
            (snd (serve (login Scenario.env Scenario.login_alice)
                    (snd (serve (register Scenario.env Scenario.register_alice)
                            Scenario.empty))))) =
       {| status := 200;
          json := JObject
            [ ("message", JString "Welcome to your profile!");
              ("user", JObject [ ("id", JUuid 1);
                                 ("username", JString "alice01");
                                 ("email", JString "a@x.com") ]) ] |}.
Proof.
  assert (Hvalid : Joi.validate registerSchema (body Scenario.register_alice) = None)
    by (vm_compute; reflexivity).
  assert (Hfree : User.taken "alice01" "a@x.com" (users Scenario.empty) = false)
    by reflexivity.
  assert (Hvalid' : Joi.validate loginSchema (body Scenario.login_alice) = None)
    by (vm_compute; reflexivity).
  split; [exact Hvalid|]. split; [exact Hfree|]. split; [exact Hvalid'|].
  exact (X6_register_login_profile (jwt_laws := reference_jwt_laws)
           (bcrypt_laws := reference_bcrypt_laws)
           Scenario.env Scenario.env (Scenario.at_time 2000)
           Scenario.register_alice Scenario.login_alice
           (Scenario.get_with ("Bearer " ++ Scenario.token)) Scenario.empty
           "alice01" "Abcdef1!" "a@x.com"
           Hvalid eq_refl eq_refl eq_refl Hfree Hvalid' eq_refl eq_refl
           eq_refl eq_refl eq_refl).
Defined.

(** A rightly signed token for a key that has no row. *)
Lemma X7_witness :
  Joi.validate newPasswordSchema (body (Scenario.reset_with Cases.stranger)) = None
  /\ Jwt.verify Cases.stranger (JWT_SECRET Scenario.env) (now Scenario.env) =
       inr {| Jwt.id := 7; Jwt.iat := 1000; Jwt.exp := 4600 |}
  /\ by_id Scenario.world 7 = None
  /\ serve (resetPassword Scenario.env (Scenario.reset_with Cases.stranger)) Scenario.world =
       (InvalidToken 400,
        traced Scenario.world [JwtVerify (Some Cases.stranger); DbFindByPk 7]).
Proof.
  assert (Hvalid : Joi.validate newPasswordSchema
                     (body (Scenario.reset_with Cases.stranger)) = None)
    by (vm_compute; reflexivity).
  assert (Hverify : Jwt.verify Cases.stranger (JWT_SECRET Scenario.env) (now Scenario.env) =
                    inr {| Jwt.id := 7; Jwt.iat := 1000; Jwt.exp := 4600 |})
    by (vm_compute; reflexivity).
  assert (Hnone : by_id Scenario.world 7 = None) by reflexivity.
  split; [exact Hvalid|]. split; [exact Hverify|]. split; [exact Hnone|].
  exact (X7_reset_for_a_missing_subject Scenario.env (Scenario.reset_with Cases.stranger)
           Scenario.world Cases.stranger _ Hvalid eq_refl Hverify Hnone).
Defined.

(** Alice asks for a reset, confirms it and logs in with the new
    password. *)
Lemma X9_witness :
  well_formed Scenario.world
  /\ Joi.validate resetPasswordSchema (body (Scenario.reset_request "a@x.com")) = None
  /\ by_email Scenario.world "a@x.com" = Some Scenario.alice
  /\ Joi.validate newPasswordSchema (body (Scenario.reset_with Scenario.token)) = None
  /\ Joi.validate loginSchema (body Cases.login_renewed) = None
  /\ outbox (snd (serve (resetPasswordRequest Scenario.env
                           (Scenario.reset_request "a@x.com")) Scenario.world)) =
       (outbox Scenario.world ++ [reset_mail Scenario.env "a@x.com" Scenario.alice])%list
  /\ fst (serve (resetPassword (Scenario.at_time 2000) (Scenario.reset_with Scenario.token))
            (snd (serve (resetPasswordRequest Scenario.env
                           (Scenario.reset_request "a@x.com")) Scenario.world))) =
       {| status := 200; json := message "Password reset successfully." |}
  /\ fst (serve (login (Scenario.at_time 3000) Cases.login_renewed)
            (snd (serve (resetPassword (Scenario.at_time 2000)
                           (Scenario.reset_with Scenario.token))
                    (snd (serve (resetPasswordRequest Scenario.env
                                   (Scenario.reset_request "a@x.com"))
                            Scenario.world))))) =
       {| status := 200;
          json := JObject [ ("message", JString "Login successful.");
                            ("token", JString (issue (Scenario.at_time 3000) 1)) ] |}.
Proof.
  assert (Hwf : well_formed Scenario.world).
  { unfold well_formed. cbn.
    repeat split; (apply NoDup_cons; [intros [] | apply NoDup_nil]). }
  assert (Hvalid : Joi.validate resetPasswordSchema
                     (body (Scenario.reset_request "a@x.com")) = None)
    by (vm_compute; reflexivity).
  assert (Hfound : by_email Scenario.world "a@x.com" = Some Scenario.alice)
    by reflexivity.
  assert (Hvalid' : Joi.validate newPasswordSchema
                      (body (Scenario.reset_with Scenario.token)) = None)
    by (vm_compute; reflexivity).
  assert (Hvalid'' : Joi.validate loginSchema (body Cases.login_renewed) = None)
    by (vm_compute; reflexivity).
  split; [exact Hwf|]. split; [exact Hvalid|]. split; [exact Hfound|].
  split; [exact Hvalid'|]. split; [exact Hvalid''|].
  exact (X9_reset_flow_end_to_end (jwt_laws := reference_jwt_laws)
           (bcrypt_laws := reference_bcrypt_laws)
           Scenario.env (Scenario.at_time 2000) (Scenario.at_time 3000)
           (Scenario.reset_request "a@x.com") (Scenario.reset_with Scenario.token)
           Cases.login_renewed Scenario.world "a@x.com" "Zyxwvu9?" Scenario.alice
           Hwf Hvalid eq_refl Hfound eq_refl eq_refl eq_refl Hvalid' eq_refl eq_refl
           Hvalid'' eq_refl eq_refl).
Defined.

(** The token of alice, used for two resets. *)
Lemma X10_witness :
  by_id Scenario.world 1 = Some Scenario.alice
  /\ Joi.validate newPasswordSchema (body (Scenario.reset_with Scenario.token)) = None
  /\ Joi.validate newPasswordSchema (body Cases.reset_again) = None
  /\ fst (serve (resetPassword (Scenario.at_time 2000) (Scenario.reset_with Scenario.token))
            Scenario.world) =
       {| status := 200; json := message "Password reset successfully." |}
  /\ fst (serve (resetPassword (Scenario.at_time 3000) Cases.reset_again)
            (snd (serve (resetPassword (Scenario.at_time 2000)
                           (Scenario.reset_with Scenario.token)) Scenario.world))) =
       {| status := 200; json := message "Password reset successfully." |}
  /\ users (snd (serve (resetPassword (Scenario.at_time 3000) Cases.reset_again)
                   (snd (serve (resetPassword (Scenario.at_time 2000)
                                  (Scenario.reset_with Scenario.token)) Scenario.world)))) =
       with_password 1 (Bcrypt.hash "Qwerty7#x" 10 "pepper") (users Scenario.world).
Proof.
  assert (Hfound : by_id Scenario.world (Model.id Scenario.alice) = Some Scenario.alice)
    by reflexivity.
  assert (Hvalid : Joi.validate newPasswordSchema
                     (body (Scenario.reset_with Scenario.token)) = None)
    by (vm_compute; reflexivity).
  assert (Hvalid' : Joi.validate newPasswordSchema (body Cases.reset_again) = None)
    by (vm_compute; reflexivity).
  split; [exact Hfound|]. split; [exact Hvalid|]. split; [exact Hvalid'|].
  exact (X10_reset_token_can_be_replayed (jwt_laws := reference_jwt_laws)
           Scenario.env (Scenario.at_time 2000) (Scenario.at_time 3000)
           (Scenario.reset_with Scenario.token) Cases.reset_again Scenario.world
           "Zyxwvu9?" "Qwerty7#x" Scenario.alice
           Hfound eq_refl eq_refl Hvalid eq_refl eq_refl
           eq_refl eq_refl Hvalid' eq_refl eq_refl).
Defined.

(** Alice asks for a reset while the transport is down. *)
Lemma X11_witness :
  Joi.validate resetPasswordSchema (body (Scenario.reset_request "a@x.com")) = None
  /\ by_email Scenario.world "a@x.com" = Some Scenario.alice
  /\ smtp_up Cases.offline = false
  /\ serve (resetPasswordRequest Cases.offline (Scenario.reset_request "a@x.com"))
           Scenario.world =
       (InternalError,
        traced Scenario.world
          [ DbFindOne "email" (Some "a@x.com"); JwtSign 1; MailSend (Some "a@x.com");
            ConsoleError "Error during password reset request:" ]).
Proof.
  assert (Hvalid : Joi.validate resetPasswordSchema
                     (body (Scenario.reset_request "a@x.com")) = None)
    by (vm_compute; reflexivity).
  assert (Hfound : by_email Scenario.world "a@x.com" = Some Scenario.alice)
    by reflexivity.
  split; [exact Hvalid|]. split; [exact Hfound|]. split; [reflexivity|].
  exact (X11_reset_request_when_mail_fails Cases.offline
           (Scenario.reset_request "a@x.com") Scenario.world "a@x.com" Scenario.alice
           Hvalid eq_refl Hfound eq_refl).
Defined.

(** The login of alice was answered 200. *)
Lemma X13_witness :
  status (fst (serve (login Scenario.env Scenario.login_alice) Scenario.world)) = 200
  /\ exists username password u,
       get "username" (body Scenario.login_alice) = Some username
       /\ get "password" (body Scenario.login_alice) = Some password
       /\ by_username Scenario.world username = Some u
       /\ Bcrypt.compare password (Model.password u) = true
       /\ json (fst (serve (login Scenario.env Scenario.login_alice) Scenario.world)) =
            JObject [ ("message", JString "Login successful.");
                      ("token", JString (issue Scenario.env (Model.id u))) ].
Proof.
  assert (Hok : status (fst (serve (login Scenario.env Scenario.login_alice)
                               Scenario.world)) = 200)
    by (vm_compute; reflexivity).
  split; [exact Hok|].
  exact (X13_login_succeeds_only_with_the_password Scenario.env Scenario.login_alice
           Scenario.world Hok).
Defined.

(** The profile asked for with the token of a key that has no row. *)
Lemma X14_witness :
  nth_error (Js.split " " ("Bearer " ++ Cases.stranger)) 1 = Some Cases.stranger
  /\ Cases.stranger <> ""
  /\ Jwt.verify Cases.stranger (JWT_SECRET Scenario.env) (now Scenario.env) =
       inr {| Jwt.id := 7; Jwt.iat := 1000; Jwt.exp := 4600 |}
  /\ by_id Scenario.world 7 = None
  /\ serve (profile Scenario.env (Scenario.get_with ("Bearer " ++ Cases.stranger)))
           Scenario.world =
       ({| status := 404; json := message "User not found." |},
        traced Scenario.world [JwtVerify (Some Cases.stranger); DbFindByPk 7]).
Proof.
  assert (Hword : nth_error (Js.split " " ("Bearer " ++ Cases.stranger)) 1 =
                  Some Cases.stranger) by (vm_compute; reflexivity).
  assert (Hne : Cases.stranger <> "") by (vm_compute; discriminate).
  assert (Hverify : Jwt.verify Cases.stranger (JWT_SECRET Scenario.env) (now Scenario.env) =
                    inr {| Jwt.id := 7; Jwt.iat := 1000; Jwt.exp := 4600 |})
    by (vm_compute; reflexivity).
  assert (Hnone : by_id Scenario.world 7 = None) by reflexivity.
  split; [exact Hword|]. split; [exact Hne|]. split; [exact Hverify|].
  split; [exact Hnone|].
  exact (X14_profile_of_a_missing_subject Scenario.env
           (Scenario.get_with ("Bearer " ++ Cases.stranger)) Scenario.world
           ("Bearer " ++ Cases.stranger) Cases.stranger _
           eq_refl Hword Hne Hverify Hnone).
Defined.

(** The profile of alice was answered 200. *)
Lemma X15_witness :
  status (fst (serve (profile Scenario.env
                        (Scenario.get_with ("Bearer " ++ Scenario.token)))
                 Scenario.world)) = 200
  /\ exists header token decoded u,
       get "authorization" (headers (Scenario.get_with ("Bearer " ++ Scenario.token))) =
         Some header
       /\ nth_error (Js.split " " header) 1 = Some token
       /\ Jwt.verify token (JWT_SECRET Scenario.env) (now Scenario.env) = inr decoded
       /\ by_id Scenario.world (Jwt.id decoded) = Some u
       /\ json (fst (serve (profile Scenario.env
                              (Scenario.get_with ("Bearer " ++ Scenario.token)))
                       Scenario.world)) = profile_of u.
Proof.
  assert (Hok : status (fst (serve (profile Scenario.env
                                      (Scenario.get_with ("Bearer " ++ Scenario.token)))
                               Scenario.world)) = 200)
    by (vm_compute; reflexivity).
  split; [exact Hok|].
  exact (X15_profile_only_for_a_verified_token Scenario.env
           (Scenario.get_with ("Bearer " ++ Scenario.token)) Scenario.world Hok).
Defined.

(** A header that stops after the space, one with two spaces, and one
    with a word too many. *)
Lemma X16_witness :
  Js.free_of " " "Bearer" = true
  /\ serve (profile Scenario.env (Scenario.get_with "Bearer ")) Scenario.world =
       (NoTokenProvided, Scenario.world)
  /\ serve (profile Scenario.env (Scenario.get_with ("Bearer  " ++ Scenario.token)))
           Scenario.world =
       (NoTokenProvided, Scenario.world)
  /\ serve (profile Scenario.env
              (Scenario.get_with ("Bearer " ++ Scenario.token ++ " " ++ "and more")))
           Scenario.world =
       match Jwt.verify Scenario.token (JWT_SECRET Scenario.env) (now Scenario.env) with
       | inl _ => (InvalidToken 401, traced Scenario.world [JwtVerify (Some Scenario.token)])
       | inr decoded =>
           serve (profileOf ["id"; "username"; "email"] (Jwt.id decoded))
                 (traced Scenario.world [JwtVerify (Some Scenario.token)])
       end.
Proof.
  assert (Hscheme : Js.free_of " " "Bearer" = true) by reflexivity.
  split; [exact Hscheme|]. split; [|split].
  - exact (proj1 (X16_only_the_second_word_counts Scenario.env
                    (Scenario.get_with "Bearer ") Scenario.world
                    (profileOf ["id"; "username"; "email"]) "Bearer" Hscheme) eq_refl).
  - exact (proj1 (proj2 (X16_only_the_second_word_counts Scenario.env
                           (Scenario.get_with ("Bearer  " ++ Scenario.token)) Scenario.world
                           (profileOf ["id"; "username"; "email"]) "Bearer" Hscheme))
             Scenario.token eq_refl).
  - refine (proj2 (proj2 (X16_only_the_second_word_counts Scenario.env
                            (Scenario.get_with
                               ("Bearer " ++ Scenario.token ++ " " ++ "and more"))
                            Scenario.world
                            (profileOf ["id"; "username"; "email"]) "Bearer" Hscheme))
              Scenario.token "and more" _ _ eq_refl).
    + vm_compute; reflexivity.
    + vm_compute; discriminate.
Defined.

(** The table with alice has no duplicates, and keeps having none. *)
Lemma X17_witness :
  well_formed Scenario.world
  /\ well_formed (snd (serve (register Scenario.env Cases.register_bob) Scenario.world))
  /\ well_formed (snd (serve (resetPassword (Scenario.at_time 2000)
                                (Scenario.reset_with Scenario.token)) Scenario.world)).
Proof.
  assert (Hwf : well_formed Scenario.world).
  { unfold well_formed. cbn.
    repeat split; (apply NoDup_cons; [intros [] | apply NoDup_nil]). }
  split; [exact Hwf|]. split.
  - exact (proj1 (X17_no_route_creates_a_duplicate Scenario.env Cases.register_bob
                    Scenario.world Hwf)).
  - exact (proj1 (proj2 (proj2 (proj2
             (X17_no_route_creates_a_duplicate (Scenario.at_time 2000)
                (Scenario.reset_with Scenario.token) Scenario.world Hwf))))).
Defined.

(** A registration with an email without a dot, and a login without a
    password, on the inline router. *)
Lemma X19_witness :
  emailRegex_test "b@x" = false
  /\ serve (Inline.register Scenario.env Cases.register_unshaped) Scenario.world =
       ({| status := 400; json := message "Invalid email format." |}, Scenario.world)
  /\ serve (Inline.login Scenario.env (Scenario.post_body [("username", "alice01")]))
           Scenario.world =
       ({| status := 400; json := message "Username and password are required." |},
        Scenario.world).
Proof.
  split; [reflexivity|]. split.
  - exact (proj1 (proj2 (X19_inline_checks_answer_first
                           Scenario.env Cases.register_unshaped Scenario.world))
             eq_refl eq_refl eq_refl eq_refl).
  - exact (proj1 (proj2 (proj2 (X19_inline_checks_answer_first
                                  Scenario.env
                                  (Scenario.post_body [("username", "alice01")])
                                  Scenario.world)))
             (or_intror eq_refl)).
Defined.

(** The login of alice, on both routers. *)
Lemma X20_witness :
  Joi.validate loginSchema (body Scenario.login_alice) = None
  /\ serve (Inline.login Scenario.env Scenario.login_alice) Scenario.world =
     serve (login Scenario.env Scenario.login_alice) Scenario.world.
Proof.
  assert (Hvalid : Joi.validate loginSchema (body Scenario.login_alice) = None)
    by (vm_compute; reflexivity).
  split; [exact Hvalid|].
  exact (proj1 (proj2 (X20_both_routers_agree_on_accepted_requests
                         Scenario.env Scenario.login_alice Scenario.world))
           Hvalid eq_refl eq_refl).
Defined.

(** An address nobody has, and the address of alice. *)
Lemma X21_witness :
  Joi.validate resetPasswordSchema (body (Scenario.reset_request "b@x.com")) = None
  /\ (status (fst (serve (resetPasswordRequest Scenario.env
                            (Scenario.reset_request "b@x.com")) Scenario.world)) = 404
      <-> by_email Scenario.world "b@x.com" = None).
Proof.
  assert (Hvalid : Joi.validate resetPasswordSchema
                     (body (Scenario.reset_request "b@x.com")) = None)
    by (vm_compute; reflexivity).
  split; [exact Hvalid|].
  exact (X21_reset_request_tells_known_addresses Scenario.env
           (Scenario.reset_request "b@x.com") Scenario.world "b@x.com" Hvalid eq_refl).
Defined.

(** The reset of alice's password. *)
Lemma X22_witness :
  Joi.validate newPasswordSchema (body (Scenario.reset_with Scenario.token)) = None
  /\ Jwt.verify Scenario.token (JWT_SECRET Scenario.env) (now Scenario.env) =
       inr {| Jwt.id := 1; Jwt.iat := 1000; Jwt.exp := 4600 |}
  /\ by_id Scenario.world 1 = Some Scenario.alice
  /\ List.length (users (snd (serve (resetPassword Scenario.env
                                       (Scenario.reset_with Scenario.token))
                                Scenario.world))) = List.length (users Scenario.world)
  /\ (forall v,
        In v (users (snd (serve (resetPassword Scenario.env
                                   (Scenario.reset_with Scenario.token)) Scenario.world))) ->
        Model.id v = Model.id Scenario.alice ->
        Model.password v = Bcrypt.hash "Zyxwvu9?" 10 (salt Scenario.env)
        /\ Bcrypt.compare "Zyxwvu9?" (Model.password v) = true
        /\ Model.password v <> "Zyxwvu9?")
  /\ (forall v,
        In v (users (snd (serve (resetPassword Scenario.env
                                   (Scenario.reset_with Scenario.token)) Scenario.world))) ->
        Model.id v <> Model.id Scenario.alice ->
        In v (users Scenario.world)).
Proof.
  assert (Hvalid : Joi.validate newPasswordSchema
                     (body (Scenario.reset_with Scenario.token)) = None)
    by (vm_compute; reflexivity).
  assert (Hverify : Jwt.verify Scenario.token (JWT_SECRET Scenario.env) (now Scenario.env) =
                    inr {| Jwt.id := 1; Jwt.iat := 1000; Jwt.exp := 4600 |})
    by (vm_compute; reflexivity).
  assert (Hfound : by_id Scenario.world 1 = Some Scenario.alice) by reflexivity.
  split; [exact Hvalid|]. split; [exact Hverify|]. split; [exact Hfound|].
  exact (X22_reset_stores_a_hash_and_spares_the_others
           (bcrypt_laws := reference_bcrypt_laws)
           Scenario.env (Scenario.reset_with Scenario.token) Scenario.world
           Scenario.token "Zyxwvu9?" _ Scenario.alice
           Hvalid eq_refl eq_refl Hverify Hfound).
Defined.
